(** * cozepy.auth: OAuth client flows, token caching and header injection

    A shallow embedding of [cozepy/auth/__init__.py] and the properties
    its specification states about it.

    Conventions of the embedding.
    - A Python [str] is a [string]: the sequence of the bytes of its UTF-8
      encoding.  The only string operations the module performs
      ([==], [in], [replace], [join], formatting, [quote_plus]) search for
      and insert ASCII text, which acts on the encoding exactly as on the
      code points.
    - A Python value whose type the code tests at run time is a [PyVal].
    - An optional argument [x: str = None] is an [option string].
    - A method that can raise returns a [Result]; a method that reads the
      clock, draws random bytes, signs or talks to the network runs in the
      monad [M], which threads the state and keeps it when an exception is
      raised, as Python does. *)

From Stdlib Require Import ZArith QArith.QArith_base String Ascii List Bool Lia.
From stdpp Require Import base option list strings gmap.
Import ListNotations.

Local Open Scope string_scope.
Local Open Scope Z_scope.

(** ** Python values, exceptions and results *)

Inductive PyVal : Type :=
| PyNone
| PyBool (b : bool)
| PyInt (z : Z)
| PyFloat (q : Q)
| PyStr (s : string)
| PyBytes (bs : list ascii).

Inductive Exn : Type :=
| AssertionError
| TypeError (msg : string)
| ValueError (msg : string)
| AttributeError (msg : string)
| TransportError (msg : string)
| SignError (msg : string).

Inductive Result (A : Type) : Type :=
| Ok (a : A)
| Raise (e : Exn).
Arguments Ok {A} a.
Arguments Raise {A} e.

Definition is_ok {A} (r : Result A) : bool :=
  match r with Ok _ => true | Raise _ => false end.

(** [isinstance(v, str)] *)
Definition isinstance_str (v : PyVal) : bool :=
  match v with PyStr _ => true | _ => false end.

(** [isinstance(v, int)]: [bool] is a subclass of [int]. *)
Definition isinstance_int (v : PyVal) : bool :=
  match v with PyInt _ | PyBool _ => true | _ => false end.

(** The integer an [int] instance denotes ([True] is 1, [False] is 0). *)
Definition int_value (v : PyVal) : Z :=
  match v with
  | PyInt z => z
  | PyBool true => 1
  | _ => 0
  end.

Definition str_value (v : PyVal) : string :=
  match v with PyStr s => s | _ => "" end.

(** ** The monad of effectful methods: state kept across exceptions *)

Definition M (S A : Type) : Type := S -> Result A * S.

Definition ret {S A} (a : A) : M S A := fun s => (Ok a, s).

Definition bind {S A B} (m : M S A) (k : A -> M S B) : M S B :=
  fun s =>
    match m s with
    | (Ok a, s') => k a s'
    | (Raise e, s') => (Raise e, s')
    end.

Declare Scope py_scope.
Delimit Scope py_scope with py.
Notation "'let*' x ':=' m 'in' k" := (bind m (fun x => k))
  (at level 10, x name, m at level 100, k at level 200) : py_scope.
Notation "'do' m 'then' k" := (bind m (fun _ => k))
  (at level 10, m at level 100, k at level 200) : py_scope.

(** ** [str] methods *)

(** [len(s) > 0], the truth value of a [str]. *)
Definition str_truthy (s : string) : bool :=
  match s with EmptyString => false | String _ _ => true end.

(** The truth value of an optional [str]: [None] and [""] are false. *)
Definition opt_truthy (o : option string) : bool :=
  match o with None => false | Some s => str_truthy s end.

(** [sub in s] *)
Fixpoint str_in (sub s : string) : bool :=
  String.prefix sub s ||
  match s with
  | EmptyString => false
  | String _ s' => str_in sub s'
  end.

(** [s.replace(old, new)] for a non-empty [old]: scan left to right and
    replace every occurrence that does not overlap the previous one.
    [skip] counts the characters of a match that remain to be dropped. *)
Fixpoint replace_go (old new : string) (skip : nat) (s : string) : string :=
  match s with
  | EmptyString => EmptyString
  | String c s' =>
      match skip with
      | S k => replace_go old new k s'
      | O =>
          if String.prefix old s
          then new +:+ replace_go old new (Nat.pred (String.length old)) s'
          else String c (replace_go old new O s')
      end
  end.

(** [s.replace("", new)] puts [new] before every character and at the end. *)
Fixpoint intersperse_all (new s : string) : string :=
  match s with
  | EmptyString => new
  | String c s' => new +:+ String c (intersperse_all new s')
  end.

Definition str_replace (old new s : string) : string :=
  match old with
  | EmptyString => intersperse_all new s
  | String _ _ => replace_go old new O s
  end.

(** [sep.join(l)] *)
Fixpoint str_join (sep : string) (l : list string) : string :=
  match l with
  | [] => ""
  | [x] => x
  | x :: l' => x +:+ sep +:+ str_join sep l'
  end.

(** ** [urllib.parse.quote_plus] *)

Definition _ALWAYS_SAFE : string :=
  "ABCDEFGHIJKLMNOPQRSTUVWXYZabcdefghijklmnopqrstuvwxyz0123456789_.-~".

Definition char_in (c : ascii) (s : string) : bool :=
  existsb (Ascii.eqb c) (list_ascii_of_string s).

Definition hex_upper (n : N) : ascii :=
  match String.get (N.to_nat n) "0123456789ABCDEF" with
  | Some c => c
  | None => "0"%char
  end.

(** ['%{:02X}'.format(b)] *)
Definition percent_byte (c : ascii) : string :=
  let n := N_of_ascii c in
  String "%"%char (String (hex_upper (n / 16)%N) (String (hex_upper (n mod 16)%N) "")).

Definition quote_byte (safe : string) (c : ascii) : string :=
  if char_in c (_ALWAYS_SAFE +:+ safe) then String c "" else percent_byte c.

Fixpoint quote_from_bytes (bs : string) (safe : string) : string :=
  match bs with
  | EmptyString => ""
  | String c bs' => quote_byte safe c +:+ quote_from_bytes bs' safe
  end.

(** [quote(string, safe)] on a [str]: the empty string is returned as it
    is, any other is encoded to UTF-8 and quoted byte by byte. *)
Definition quote (s : string) (safe : string) : string :=
  match s with
  | EmptyString => s
  | String _ _ => quote_from_bytes s safe
  end.

(** [quote_plus(string)] on a [str], with the default [safe='']. *)
Definition quote_plus_str (s : string) : string :=
  if negb (str_in " " s)
  then quote s ""
  else str_replace " " "+" (quote s " ").

(** [quote_plus(v)] on a dictionary value: [None] reaches
    [quote_from_bytes], which raises [TypeError]. *)
Definition quote_plus (v : option string) : Result string :=
  match v with
  | Some s => Ok (quote_plus_str s)
  | None => Raise (TypeError "quote_from_bytes() expected bytes")
  end.

(** ** Dictionaries that keep insertion order

    [params], the JWT header and payload, and request bodies are [dict]
    literals whose order reaches the output; they are association lists,
    and [d[k] = v] overwrites in place or appends. *)

Definition dict (V : Type) : Type := list (string * V).

Fixpoint dict_get {V} (k : string) (d : dict V) : option V :=
  match d with
  | [] => None
  | (k', v) :: d' => if String.eqb k k' then Some v else dict_get k d'
  end.

Fixpoint dict_set {V} (k : string) (v : V) (d : dict V) : dict V :=
  match d with
  | [] => [(k, v)]
  | (k', v') :: d' =>
      if String.eqb k k' then (k', v) :: d' else (k', v') :: dict_set k v d'
  end.

Definition dict_keys {V} (d : dict V) : list string := map fst d.

(** [[f(k, v) for k, v in d.items()]] where [f] may raise. *)
Fixpoint map_result {A B} (f : A -> Result B) (l : list A) : Result (list B) :=
  match l with
  | [] => Ok []
  | a :: l' =>
      match f a with
      | Raise e => Raise e
      | Ok b =>
          match map_result f l' with
          | Raise e => Raise e
          | Ok bs => Ok (b :: bs)
          end
      end
  end.

(** ** Data model *)

Module OAuthToken.
Record t : Type := mk {
  access_token : string;
  expires_in : Z;
  refresh_token : string;
  token_type : string;
}.
End OAuthToken.

Module DeviceAuthCode.
Record t : Type := mk {
  device_code : string;
  user_code : string;
  verification_uri : string;
  interval : Z;
  expires_in : Z;
}.

Definition verification_url (self : t) : string :=
  verification_uri self +:+ "?user_code=" +:+ user_code self.
End DeviceAuthCode.

(** ** The world outside the module

    Objects of class [OAuthToken] live in a heap and are referred to by
    location; the transport allocates the object it parses from a
    response.  Every interaction with a collaborator is recorded in the
    trace, in the order it happens. *)

Definition loc : Type := nat.

Record Request : Type := mkRequest {
  req_method : string;
  req_url : string;
  req_headers : option (gmap string string);
  req_body : option (dict PyVal);
}.

(** [EvTime], [EvRandomHex], [EvJwtEncode] and [EvRequest] record a call of
    a collaborator with what it answered; [EvGetAccessToken] records that
    [JWTOAuthApp.get_access_token] was entered with this [ttl], as a spy
    on the method would, so that exchanges can be counted. *)
Inductive Event : Type :=
| EvTime (now : Z)
| EvRandomHex (n : Z) (hex : string)
| EvJwtEncode (header payload : dict PyVal) (key : string) (out : Result string)
| EvRequest (req : Request) (resp : Result OAuthToken.t)
| EvGetAccessToken (ttl : Z).

Record World : Type := mkWorld {
  trace : list Event;
  heap : list OAuthToken.t;
}.

(** The collaborators and constants the module imports.  The clock, the
    random generator and the server may answer differently each time:
    their answer is a function of everything that happened before. *)
Record Env : Type := mkEnv {
  (** [cozepy.config.COZE_CN_BASE_URL], [COZE_COM_BASE_URL] *)
  COZE_CN_BASE_URL : string;
  COZE_COM_BASE_URL : string;
  (** [int(time.time())] *)
  clock : list Event -> Z;
  (** [cozepy.util.random_hex(n)] *)
  random_hex : list Event -> Z -> string;
  (** [authlib.jose.jwt.encode(header, payload, key).decode("utf-8")] *)
  jwt_encode : dict PyVal -> dict PyVal -> string -> Result string;
  (** [urllib.parse.urlparse(url).netloc] *)
  urlparse_netloc : string -> Result string;
  (** [cozepy.util.gen_s256_code_challenge] *)
  gen_s256_code_challenge : string -> string;
  (** [Requester().request(method, url, OAuthToken, headers, body)] *)
  transport : list Event -> Request -> Result OAuthToken.t;
}.

Definition emit (e : Event) (w : World) : World :=
  mkWorld (trace w ++ [e]) (heap w).

Section Effects.
Context (E : Env).

(** [int(time.time())] *)
Definition time_time_int : M World Z :=
  fun w => let now := clock E (trace w) in (Ok now, emit (EvTime now) w).

Definition call_random_hex (n : Z) : M World string :=
  fun w => let h := random_hex E (trace w) n in (Ok h, emit (EvRandomHex n h) w).

Definition call_jwt_encode (header payload : dict PyVal) (key : string) : M World string :=
  fun w =>
    let out := jwt_encode E header payload key in
    (out, emit (EvJwtEncode header payload key out) w).

(** Modelled from the spec: [cozepy.request.Requester] is not among the
    sources.  [self._requester.request(method, url, OAuthToken, headers=,
    body=)] returns an instance of the response model, a new [OAuthToken]
    object created by the successful exchange, or fails with the
    transport's error. *)
Definition requester_request (method url : string)
    (headers : option (gmap string string)) (body : option (dict PyVal)) : M World loc :=
  fun w =>
    let req := mkRequest method url headers body in
    match transport E (trace w) req with
    | Ok tok =>
        (Ok (length (heap w)),
         mkWorld (trace w ++ [EvRequest req (Ok tok)]) (heap w ++ [tok]))
    | Raise e => (Raise e, emit (EvRequest req (Raise e)) w)
    end.
End Effects.

(** Reading a field of the object at [l]. *)
Definition deref {S} (world : S -> World) (l : loc) : M S OAuthToken.t :=
  fun s =>
    match heap (world s) !! l with
    | Some tok => (Ok tok, s)
    | None => (Raise (AttributeError "no object at this location"), s)
    end.

(** A method of an object held in a field runs on the world component. *)
Definition on_world {T A} (m : M World A) : M (T * World) A :=
  fun '(self, w) => let '(r, w') := m w in (r, (self, w')).

(** The number of calls of [JWTOAuthApp.get_access_token] so far. *)
Definition is_exchange (e : Event) : bool :=
  match e with EvGetAccessToken _ => true | _ => false end.

Definition exchanges (w : World) : nat := length (List.filter is_exchange (trace w)).

Definition is_request (e : Event) : bool :=
  match e with EvRequest _ _ => true | _ => false end.

(** The number of calls of the transport so far. *)
Definition network_calls (w : World) : nat := length (List.filter is_request (trace w)).

(** ** class OAuthApp *)

Module OAuthApp.
Record t : Type := mk {
  _client_id : string;
  _base_url : string;
  _api_endpoint : string;
  _www_base_url : string;
}.

Section Methods.
Context (E : Env).

Definition __init__ (client_id base_url www_base_url : string) : Result t :=
  match urlparse_netloc E base_url with
  | Raise e => Raise e
  | Ok netloc => Ok (mk client_id base_url netloc www_base_url)
  end.

(** The property [_get_www_base_url]. *)
Definition _get_www_base_url (self : t) : string :=
  if str_truthy (_www_base_url self) then _www_base_url self
  else if existsb (String.eqb (_base_url self))
            [COZE_CN_BASE_URL E; COZE_COM_BASE_URL E]
  then str_replace "api" "www" (_base_url self)
  else _base_url self.

(** The local [params] of [_get_oauth_url] when the URL is assembled. *)
Definition _get_oauth_url_params (self : t) (redirect_uri state : string)
    (code_challenge code_challenge_method : option string) : dict (option string) :=
  let params :=
    [ ("response_type", Some "code");
      ("client_id", Some (_client_id self));
      ("redirect_uri", Some redirect_uri);
      ("state", Some state) ] in
  if opt_truthy code_challenge
  then dict_set "code_challenge_method" code_challenge_method
         (dict_set "code_challenge" code_challenge params)
  else params.

(** The local [uri] of [_get_oauth_url] when the URL is assembled. *)
Definition _get_oauth_url_uri (self : t) (workspace_id : option string) : string :=
  let uri := _get_www_base_url self +:+ "/api/permission/oauth2/authorize" in
  match workspace_id with
  | Some w =>
      if str_truthy w
      then _get_www_base_url self +:+ "/api/permission/oauth2/workspace_id/"
             +:+ w +:+ "/authorize"
      else uri
  | None => uri
  end.

(** [f"{k}={quote_plus(v)}"] *)
Definition render_param (kv : string * option string) : Result string :=
  match quote_plus (snd kv) with
  | Raise e => Raise e
  | Ok q => Ok (fst kv +:+ "=" +:+ q)
  end.

Definition _get_oauth_url (self : t) (redirect_uri state : string)
    (code_challenge code_challenge_method workspace_id : option string) : Result string :=
  let params :=
    _get_oauth_url_params self redirect_uri state code_challenge code_challenge_method in
  let uri := _get_oauth_url_uri self workspace_id in
  match map_result render_param params with
  | Raise e => Raise e
  | Ok parts => Ok (uri +:+ "?" +:+ str_join "&" parts)
  end.

Definition _refresh_access_token (self : t) (refresh_token : string) : M World loc :=
  let url := _base_url self +:+ "/api/permission/oauth2/token" in
  let body :=
    [ ("grant_type", PyStr "refresh_token");
      ("client_id", PyStr (_client_id self));
      ("refresh_token", PyStr refresh_token) ] in
  requester_request E "post" url None (Some body).
End Methods.
End OAuthApp.

(** ** class JWTOAuthApp(OAuthApp) *)

Module JWTOAuthApp.
Record t : Type := mk {
  base : OAuthApp.t;
  _token : string;
  _private_key : string;
  _public_key_id : string;
}.

Section Methods.
Context (E : Env).
Local Open Scope py_scope.

Definition __init__ (client_id private_key public_key_id base_url : string) : Result t :=
  match urlparse_netloc E base_url with
  | Raise e => Raise e
  | Ok _ =>
      match OAuthApp.__init__ E client_id base_url "" with
      | Raise e => Raise e
      | Ok b => Ok (mk b "" private_key public_key_id)
      end
  end.

Definition _gen_jwt (self : t) (api_endpoint private_key client_id kid : string) (ttl : Z)
    : M World string :=
  let* now := time_time_int E in
  let header := [ ("alg", PyStr "RS256"); ("typ", PyStr "JWT"); ("kid", PyStr kid) ] in
  let* jti := call_random_hex E 16 in
  let payload :=
    [ ("iss", PyStr client_id);
      ("aud", PyStr api_endpoint);
      ("iat", PyInt now);
      ("exp", PyInt (now + ttl));
      ("jti", PyStr jti) ] in
  let* s := call_jwt_encode E header payload private_key in
  ret s.

Definition get_access_token (self : t) (ttl : Z) : M World loc :=
  do (fun w => (Ok tt, emit (EvGetAccessToken ttl) w)) then
  let* jwt_token :=
    _gen_jwt self (OAuthApp._api_endpoint (base self)) (_private_key self)
      (OAuthApp._client_id (base self)) (_public_key_id self) 3600 in
  let url := OAuthApp._base_url (base self) +:+ "/api/permission/oauth2/token" in
  let headers : gmap string string := {[ "Authorization" := "Bearer " +:+ jwt_token ]} in
  let body :=
    [ ("duration_seconds", PyInt ttl);
      ("grant_type", PyStr "urn:ietf:params:oauth:grant-type:jwt-bearer") ] in
  requester_request E "post" url (Some headers) (Some body).
End Methods.
End JWTOAuthApp.

(** ** class PKCEOAuthApp(OAuthApp) *)

Module PKCEOAuthApp.
Record t : Type := mk {
  base : OAuthApp.t;
  _token : string;
}.

Section Methods.
Context (E : Env).

Definition __init__ (client_id base_url www_base_url : string) : Result t :=
  match OAuthApp.__init__ E client_id base_url www_base_url with
  | Raise e => Raise e
  | Ok b => Ok (mk b "")
  end.

(** The local [code_challenge] of [get_oauth_url]. *)
Definition get_oauth_url_code_challenge (code_verifier code_challenge_method : string)
    : string :=
  if String.eqb code_challenge_method "plain"
  then code_verifier
  else gen_s256_code_challenge E code_verifier.

Definition get_oauth_url (self : t) (redirect_uri state code_verifier : string)
    (code_challenge_method : string) (workspace_id : option string) : Result string :=
  let code_challenge :=
    get_oauth_url_code_challenge code_verifier code_challenge_method in
  OAuthApp._get_oauth_url E (base self) redirect_uri state
    (Some code_challenge) (Some code_challenge_method) workspace_id.

Definition get_access_token (self : t) (redirect_uri code code_verifier : string)
    : M World loc :=
  let url := OAuthApp._base_url (base self) +:+ "/api/permission/oauth2/token" in
  let body :=
    [ ("grant_type", PyStr "authorization_code");
      ("code", PyStr code);
      ("client_id", PyStr (OAuthApp._client_id (base self)));
      ("redirect_uri", PyStr redirect_uri);
      ("code_verifier", PyStr code_verifier) ] in
  requester_request E "post" url None (Some body).

Definition refresh_access_token (self : t) (refresh_token : string) : M World loc :=
  OAuthApp._refresh_access_token E (base self) refresh_token.
End Methods.
End PKCEOAuthApp.

(** ** class Auth(abc.ABC)

    An implementation supplies the two abstract properties.  Each runs on
    the instance and the world, since reading [token] may renew a cached
    credential.  [authentication] is inherited by every implementation; it
    also holds the caller's [headers] dictionary, which it updates in
    place and returns nothing. *)

Class Auth (A : Type) : Type := {
  token_type : M (A * World) string;
  token : M (A * World) string;
}.

(** A method that does not touch [headers]. *)
Definition keep_headers {S A} (m : M S A) : M (S * gmap string string) A :=
  fun '(s, headers) => let '(r, s') := m s in (r, (s', headers)).

Section AuthBase.
Context {A : Type} `{Auth A}.
Local Open Scope py_scope.

Definition authentication : M (A * World * gmap string string) unit :=
  let* ty := keep_headers token_type in
  let* tk := keep_headers token in
  fun '(s, headers) => (Ok tt, (s, <["Authorization" := ty +:+ " " +:+ tk]> headers)).
End AuthBase.

(** ** class TokenAuth(Auth) *)

Module TokenAuth.
Record t : Type := mk { _token : string }.

Definition __init__ (token : PyVal) : Result t :=
  if negb (isinstance_str token) then Raise AssertionError
  else if negb (0 <? Z.of_nat (String.length (str_value token))) then Raise AssertionError
  else Ok (mk (str_value token)).

Definition token_type : M (t * World) string := ret "Bearer".

Definition token : M (t * World) string :=
  fun '(self, w) => (Ok (_token self), (self, w)).

Definition auth : Auth t := Build_Auth t token_type token.
End TokenAuth.

(** ** class JWTAuth(Auth) *)

Module JWTAuth.
Record t : Type := mk {
  _client_id : string;
  _ttl : Z;
  _base_url : string;
  _token : option loc;
  _oauth_cli : JWTOAuthApp.t;
}.

Definition set_token (o : option loc) (self : t) : t :=
  mk (_client_id self) (_ttl self) (_base_url self) o (_oauth_cli self).

Section Methods.
Context (E : Env).
Local Open Scope py_scope.

(** The default arguments [ttl=7200] and [base_url=COZE_COM_BASE_URL]. *)
Definition default_ttl : PyVal := PyInt 7200.
Definition default_base_url : PyVal := PyStr (COZE_COM_BASE_URL E).

(** An [int] instance is kept as the integer it denotes. *)
Definition __init__ (client_id private_key public_key_id ttl base_url : PyVal)
    : Result t :=
  if negb (isinstance_str client_id) then Raise AssertionError
  else if negb (isinstance_str private_key) then Raise AssertionError
  else if negb (isinstance_str public_key_id) then Raise AssertionError
  else if negb (isinstance_int ttl) then Raise AssertionError
  else if negb (0 <? int_value ttl) then Raise AssertionError
  else if negb (isinstance_str base_url) then Raise AssertionError
  else
    match JWTOAuthApp.__init__ E (str_value client_id) (str_value private_key)
            (str_value public_key_id) (str_value base_url) with
    | Raise e => Raise e
    | Ok cli =>
        Ok (mk (str_value client_id) (int_value ttl) (str_value base_url) None cli)
    end.

Definition _generate_token : M (t * World) loc :=
  fun '(self, w) =>
    let renew : M (t * World) loc :=
      let* l := on_world (JWTOAuthApp.get_access_token E (_oauth_cli self) (_ttl self)) in
      fun '(self', w') => (Ok l, (set_token (Some l) self', w')) in
    match _token self with
    | Some l =>
        (let* now := on_world (time_time_int E) in
         let* tok := deref snd l in
         if now <? OAuthToken.expires_in tok then ret l else renew) (self, w)
    | None => renew (self, w)
    end.

Definition token_type : M (t * World) string := ret "Bearer".

Definition token : M (t * World) string :=
  let* l := _generate_token in
  let* tok := deref snd l in
  ret (OAuthToken.access_token tok).

Definition auth : Auth t := Build_Auth t token_type token.
End Methods.
End JWTAuth.

(** ** A test double for the collaborators

    Used to run the model on concrete inputs: the clock advances by one
    second with every recorded event, the signer and the server always
    answer, and the server issues tokens that expire at time 2000. *)

Definition strip_scheme (url : string) : string :=
  if String.prefix "https://" url then String.substring 8 (String.length url - 8) url
  else url.

Definition test_env : Env := {|
  COZE_CN_BASE_URL := "https://api.coze.cn";
  COZE_COM_BASE_URL := "https://api.coze.com";
  clock := fun tr => 1000 + Z.of_nat (length tr);
  random_hex := fun _ _ => "000102030405060708090a0b0c0d0e0f";
  jwt_encode := fun _ _ _ => Ok "h.p.s";
  urlparse_netloc := fun url => Ok (strip_scheme url);
  gen_s256_code_challenge := fun v => "S256-" +:+ v;
  transport := fun tr _ =>
    Ok (OAuthToken.mk (String.concat "" (repeat "t" (length tr))) 2000 "" "Bearer");
|}.

(** A server that is down. *)
Definition offline_env : Env := {|
  COZE_CN_BASE_URL := COZE_CN_BASE_URL test_env;
  COZE_COM_BASE_URL := COZE_COM_BASE_URL test_env;
  clock := clock test_env;
  random_hex := random_hex test_env;
  jwt_encode := jwt_encode test_env;
  urlparse_netloc := urlparse_netloc test_env;
  gen_s256_code_challenge := gen_s256_code_challenge test_env;
  transport := fun _ _ => Raise (TransportError "connection refused");
|}.

Definition empty_world : World := mkWorld [] [].

Definition test_pkce_app : PKCEOAuthApp.t :=
  PKCEOAuthApp.mk (OAuthApp.mk "c1" "https://api.coze.com" "api.coze.com" "") "".

Definition test_jwt_app : JWTOAuthApp.t :=
  JWTOAuthApp.mk (OAuthApp.mk "c1" "https://api.coze.com" "api.coze.com" "") "" "key" "k1".

Definition test_jwt_auth : JWTAuth.t :=
  JWTAuth.mk "c1" 100 "https://api.coze.com" None test_jwt_app.



(** ** Vocabulary of the statements *)

(** The text [s] is made of unreserved characters, [+] and escapes
    [%XX] with two upper-case hexadecimal digits, and nothing else. *)
Definition is_hex_upper (c : ascii) : bool := char_in c "0123456789ABCDEF".

Fixpoint is_percent_encoded (s : string) : bool :=
  match s with
  | EmptyString => true
  | String c s1 =>
      if Ascii.eqb c "%"
      then
        match s1 with
        | String h (String l s3) => is_hex_upper h && is_hex_upper l && is_percent_encoded s3
        | _ => false
        end
      else (char_in c _ALWAYS_SAFE || Ascii.eqb c "+") && is_percent_encoded s1
  end.

(** What [quote_plus] does to one byte of its argument. *)
Definition plus_byte (c : ascii) : string :=
  if Ascii.eqb c " " then "+" else quote_byte "" c.

Fixpoint plus_bytes (s : string) : string :=
  match s with
  | EmptyString => ""
  | String c s' => plus_byte c +:+ plus_bytes s'
  end.

(** The state of an [Auth] instance and the world after [authentication]
    has been called on each of the dictionaries [hs], in that order. *)
Fixpoint authentication_calls {A} `{Auth A} (hs : list (gmap string string)) (s : A * World)
    : A * World :=
  match hs with
  | [] => s
  | h :: hs' => authentication_calls hs' (fst (snd (authentication (s, h))))
  end.

(** Reading both abstract properties, as the f-string of [authentication] does. *)
Definition read_properties {A} `{Auth A} : M (A * World) string :=
  bind token_type (fun _ => token).

(** The query string of an authorization URL without PKCE parameters. *)
Definition base_query (self : OAuthApp.t) (redirect_uri state : string) : string :=
  "response_type=code&client_id=" +:+ quote_plus_str (OAuthApp._client_id self)
  +:+ "&redirect_uri=" +:+ quote_plus_str redirect_uri
  +:+ "&state=" +:+ quote_plus_str state.

(** The query string of an authorization URL with PKCE parameters. *)
Definition pkce_query (self : OAuthApp.t) (redirect_uri state challenge method : string)
    : string :=
  "response_type=code&client_id=" +:+ quote_plus_str (OAuthApp._client_id self)
  +:+ "&redirect_uri=" +:+ quote_plus_str redirect_uri
  +:+ "&state=" +:+ quote_plus_str state
  +:+ "&code_challenge=" +:+ quote_plus_str challenge
  +:+ "&code_challenge_method=" +:+ quote_plus_str method.

(** One [key=value] item of a query string, its value percent-encoded. *)
Definition encoded_param (kv : string * option string) (part : string) : Prop :=
  exists v,
    snd kv = Some v /\
    part = fst kv +:+ "=" +:+ quote_plus_str v /\
    is_percent_encoded (quote_plus_str v) = true.

(** The test double an hour later: the clock reads 5000 whatever happened. *)
Definition late_env : Env := {|
  COZE_CN_BASE_URL := COZE_CN_BASE_URL test_env;
  COZE_COM_BASE_URL := COZE_COM_BASE_URL test_env;
  clock := fun _ => 5000;
  random_hex := random_hex test_env;
  jwt_encode := jwt_encode test_env;
  urlparse_netloc := urlparse_netloc test_env;
  gen_s256_code_challenge := gen_s256_code_challenge test_env;
  transport := transport test_env;
|}.

(** The instance and the world after a first [token] on the test double. *)
Definition after_first_token : JWTAuth.t * World :=
  Eval vm_compute in snd (JWTAuth.token test_env (test_jwt_auth, empty_world)).

(** A server that answers with an empty [access_token]. *)
Definition empty_token_env : Env := {|
  COZE_CN_BASE_URL := COZE_CN_BASE_URL test_env;
  COZE_COM_BASE_URL := COZE_COM_BASE_URL test_env;
  clock := clock test_env;
  random_hex := random_hex test_env;
  jwt_encode := jwt_encode test_env;
  urlparse_netloc := urlparse_netloc test_env;
  gen_s256_code_challenge := gen_s256_code_challenge test_env;
  transport := fun _ _ => Ok (OAuthToken.mk "" 2000 "" "Bearer");
|}.

(** ** Vocabulary of the further properties *)

(** The value of a hexadecimal digit, in either case. *)
Definition hex_value (c : ascii) : option N :=
  let n := N_of_ascii c in
  if ((48 <=? n) && (n <=? 57))%N then Some (n - 48)%N
  else if ((65 <=? n) && (n <=? 70))%N then Some (n - 55)%N
  else if ((97 <=? n) && (n <=? 102))%N then Some (n - 87)%N
  else None.

(** What a server does to a query value, [urllib.parse.unquote_plus] on
    the bytes: [+] stands for a space, [%XX] for the byte [XX], and
    anything else for itself. *)
Fixpoint unquote_plus (s : string) : string :=
  match s with
  | EmptyString => ""
  | String c s1 =>
      if Ascii.eqb c "+" then String " " (unquote_plus s1)
      else if Ascii.eqb c "%" then
        match s1 with
        | String h (String l s3) =>
            match hex_value h, hex_value l with
            | Some a, Some b => String (ascii_of_N (16 * a + b)) (unquote_plus s3)
            | _, _ => String c (unquote_plus s1)
            end
        | _ => String c (unquote_plus s1)
        end
      else String c (unquote_plus s1)
  end.

(** The number of occurrences of the character [c] in [s]. *)
Fixpoint count_char (c : ascii) (s : string) : nat :=
  match s with
  | EmptyString => 0%nat
  | String d s' => ((if Ascii.eqb c d then 1 else 0) + count_char c s')%nat
  end.

(** The reference a [JWTAuth] caches points to an object. *)
Definition cache_wf (s : JWTAuth.t * World) : Prop :=
  match JWTAuth._token (fst s) with
  | Some l => is_Some (heap (snd s) !! l)
  | None => True
  end.

(** The instance and the world after [n] readings of [token]. *)
Fixpoint token_calls (E : Env) (n : nat) (s : JWTAuth.t * World) : JWTAuth.t * World :=
  match n with
  | O => s
  | S n' => token_calls E n' (snd (JWTAuth.token E s))
  end.

(** The exchanges recorded in a trace, in order. *)
Definition exchange_events (w : World) : list Event := List.filter is_exchange (trace w).

(** The requests recorded in a trace, in order. *)
Definition request_events (w : World) : list Event := List.filter is_request (trace w).

(** The test double with a clock stopped at 1500. *)
Definition frozen_env : Env := {|
  COZE_CN_BASE_URL := COZE_CN_BASE_URL test_env;
  COZE_COM_BASE_URL := COZE_COM_BASE_URL test_env;
  clock := fun _ => 1500;
  random_hex := random_hex test_env;
  jwt_encode := jwt_encode test_env;
  urlparse_netloc := urlparse_netloc test_env;
  gen_s256_code_challenge := gen_s256_code_challenge test_env;
  transport := transport test_env;
|}.

(** A signer that rejects the key. *)
Definition bad_key_env : Env := {|
  COZE_CN_BASE_URL := COZE_CN_BASE_URL test_env;
  COZE_COM_BASE_URL := COZE_COM_BASE_URL test_env;
  clock := clock test_env;
  random_hex := random_hex test_env;
  jwt_encode := fun _ _ _ => Raise (SignError "invalid key");
  urlparse_netloc := urlparse_netloc test_env;
  gen_s256_code_challenge := gen_s256_code_challenge test_env;
  transport := transport test_env;
|}.

(** * Properties *)

(** ** Strings and [quote_plus] *)

Example quote_plus_ex1 :
  quote_plus (Some "https://a.b/c d?x=1&y=%") = Ok "https%3A%2F%2Fa.b%2Fc+d%3Fx%3D1%26y%3D%25".
Proof. reflexivity. Qed.

Example str_replace_ex1 : str_replace "api" "www" "https://api.coze.com" = "https://www.coze.com".
Proof. reflexivity. Qed.

Example str_replace_ex2 : str_replace "aa" "b" "aaaaa" = "bba".
Proof. reflexivity. Qed.

Lemma all_ascii (P : ascii -> Prop) :
  (forall b0 b1 b2 b3 b4 b5 b6 b7, P (Ascii b0 b1 b2 b3 b4 b5 b6 b7)) -> forall c, P c.
Proof. intros HP [b0 b1 b2 b3 b4 b5 b6 b7]. apply HP. Qed.

Ltac each_ascii c :=
  revert c; apply all_ascii;
  intros [] [] [] [] [] [] [] [].

Lemma replace_space_quote_byte (c : ascii) (rest : string) :
  replace_go " " "+" 0 (quote_byte " " c +:+ rest)
  = plus_byte c +:+ replace_go " " "+" 0 rest.
Proof. each_ascii c; try reflexivity; destruct rest; reflexivity. Qed.

Lemma replace_space_quote (s : string) :
  replace_go " " "+" 0 (quote_from_bytes s " ") = plus_bytes s.
Proof.
  induction s as [|c s IH]; [reflexivity|].
  cbn [quote_from_bytes plus_bytes].
  rewrite replace_space_quote_byte. now rewrite IH.
Qed.

Lemma prefix_empty (s : string) : String.prefix "" s = true.
Proof. now destruct s. Qed.

Lemma str_in_space_cons (c : ascii) (s : string) :
  str_in " " (String c s) = Ascii.eqb c " " || str_in " " s.
Proof.
  cbn [str_in String.prefix].
  destruct (ascii_dec " " c) as [<-|Hne].
  - now rewrite prefix_empty.
  - rewrite (proj2 (Ascii.eqb_neq c " ")) by congruence. reflexivity.
Qed.

Lemma quote_no_space (s : string) :
  str_in " " s = false -> quote_from_bytes s "" = plus_bytes s.
Proof.
  induction s as [|c s IH]; [reflexivity|].
  rewrite str_in_space_cons. intros [Hc Hs]%orb_false_elim.
  cbn [quote_from_bytes plus_bytes]. rewrite IH by exact Hs.
  unfold plus_byte. now rewrite Hc.
Qed.

(** [quote_plus] acts byte by byte. *)
Lemma quote_plus_str_bytes (s : string) : quote_plus_str s = plus_bytes s.
Proof.
  unfold quote_plus_str.
  destruct (str_in " " s) eqn:Hin; cbn [negb].
  - destruct s as [|c s]; [discriminate|].
    cbn [quote str_replace]. apply replace_space_quote.
  - destruct s as [|c s]; [reflexivity|].
    cbn [quote]. now apply quote_no_space.
Qed.

Lemma is_percent_encoded_plus_byte (c : ascii) (rest : string) :
  is_percent_encoded (plus_byte c +:+ rest) = is_percent_encoded rest.
Proof. each_ascii c; reflexivity. Qed.

Lemma quote_plus_str_encoded (s : string) : is_percent_encoded (quote_plus_str s) = true.
Proof.
  rewrite quote_plus_str_bytes.
  induction s as [|c s IH]; [reflexivity|].
  cbn [plus_bytes]. now rewrite is_percent_encoded_plus_byte.
Qed.

(** ** The derived www host *)

Lemma existsb_eqb_two (x a b : string) :
  existsb (String.eqb x) [a; b] = true <-> x = a \/ x = b.
Proof.
  cbn [existsb]. rewrite orb_false_r, orb_true_iff, !String.eqb_eq. tauto.
Qed.

(** C4: an app constructed with a non-empty [www_base_url] derives that
    value unchanged; otherwise, a [base_url] equal to one of the two fixed
    hosts derives [base_url] with "api" replaced by "www", and any other
    [base_url] derives [base_url] unchanged. *)
Theorem www_base_url_derivation (E : Env) (client_id base_url www_base_url : string)
    (self : OAuthApp.t) :
  OAuthApp.__init__ E client_id base_url www_base_url = Ok self ->
  (www_base_url <> "" -> OAuthApp._get_www_base_url E self = www_base_url) /\
  (www_base_url = "" ->
   base_url = COZE_CN_BASE_URL E \/ base_url = COZE_COM_BASE_URL E ->
   OAuthApp._get_www_base_url E self = str_replace "api" "www" base_url) /\
  (www_base_url = "" ->
   base_url <> COZE_CN_BASE_URL E -> base_url <> COZE_COM_BASE_URL E ->
   OAuthApp._get_www_base_url E self = base_url).
Proof.
  unfold OAuthApp.__init__. destruct (urlparse_netloc E base_url) as [netloc|e]; [|discriminate].
  intros [= <-]. unfold OAuthApp._get_www_base_url. cbn [OAuthApp._www_base_url OAuthApp._base_url].
  split; [|split].
  - intros Hset. destruct www_base_url; [congruence|reflexivity].
  - intros -> Hhost. cbn [str_truthy].
    now rewrite (proj2 (existsb_eqb_two _ _ _) Hhost).
  - intros -> Hcn Hcom. cbn [str_truthy].
    destruct (existsb _ _) eqn:Hex; [|reflexivity].
    apply existsb_eqb_two in Hex. tauto.
Qed.

Lemma www_base_url_derivation_witness :
  OAuthApp._get_www_base_url test_env
    (OAuthApp.mk "c1" "https://api.coze.com" "api.coze.com" "")
  = "https://www.coze.com".
Proof.
  pose proof (www_base_url_derivation test_env "c1" "https://api.coze.com" ""
                (OAuthApp.mk "c1" "https://api.coze.com" "api.coze.com" "") eq_refl)
    as (_ & Hfixed & _).
  exact (Hfixed eq_refl (or_intror eq_refl)).
Defined.

(** ** Header injection *)

Section AuthFacts.
Context {A : Type} `{Auth A}.

Lemma authentication_unfold (s : A * World) (headers : gmap string string) :
  authentication (s, headers) =
  match token_type s with
  | (Raise e, s1) => (Raise e, (s1, headers))
  | (Ok ty, s1) =>
      match token s1 with
      | (Raise e, s2) => (Raise e, (s2, headers))
      | (Ok tk, s2) => (Ok tt, (s2, <["Authorization" := ty +:+ " " +:+ tk]> headers))
      end
  end.
Proof.
  unfold authentication, bind, keep_headers.
  destruct (token_type s) as [[ty|e] s1]; [|reflexivity].
  destruct (token s1) as [[tk|e] s2]; reflexivity.
Qed.

Lemma authentication_state (s : A * World) (headers : gmap string string) :
  fst (snd (authentication (s, headers))) = snd (read_properties s).
Proof.
  rewrite authentication_unfold. unfold read_properties, bind.
  destruct (token_type s) as [[ty|e] s1]; [|reflexivity].
  destruct (token s1) as [[tk|e] s2]; reflexivity.
Qed.

Lemma authentication_frame (s : A * World) (headers : gmap string string) (k : string) :
  k <> "Authorization" ->
  snd (snd (authentication (s, headers))) !! k = headers !! k.
Proof.
  intros Hk. rewrite authentication_unfold.
  destruct (token_type s) as [[ty|e] s1]; [|reflexivity].
  destruct (token s1) as [[tk|e] s2]; [|reflexivity].
  cbn [snd]. now rewrite lookup_insert_ne.
Qed.
End AuthFacts.

Lemma TokenAuth_authentication_step (self : TokenAuth.t) (w : World)
    (headers : gmap string string) :
  @authentication _ TokenAuth.auth (self, w, headers)
  = (Ok tt, (self, w, <["Authorization" := "Bearer " +:+ TokenAuth._token self]> headers)).
Proof. now rewrite authentication_unfold. Qed.

Lemma TokenAuth_calls_state (hs : list (gmap string string)) (self : TokenAuth.t) (w : World) :
  @authentication_calls _ TokenAuth.auth hs (self, w) = (self, w).
Proof.
  induction hs as [|h hs IH]; [reflexivity|].
  cbn [authentication_calls]. now rewrite TokenAuth_authentication_step.
Qed.

(** C6: for a [TokenAuth] constructed with token [T], after any number of
    earlier calls of [authentication] on any dictionaries, a call on
    [headers] returns and leaves [headers["Authorization"] = "Bearer " + T]. *)
Theorem TokenAuth_authentication (T : string) (self : TokenAuth.t) (w : World)
    (hs : list (gmap string string)) (headers : gmap string string) :
  TokenAuth.__init__ (PyStr T) = Ok self ->
  exists s' headers',
    @authentication _ TokenAuth.auth
      (@authentication_calls _ TokenAuth.auth hs (self, w), headers)
    = (Ok tt, (s', headers')) /\
    headers' !! "Authorization" = Some ("Bearer " +:+ T).
Proof.
  intros Hinit. rewrite TokenAuth_calls_state, TokenAuth_authentication_step.
  eexists _, _. split; [reflexivity|].
  rewrite lookup_insert_eq. f_equal. f_equal.
  unfold TokenAuth.__init__ in Hinit. cbn in Hinit.
  destruct T; cbn in Hinit; [discriminate|]. now injection Hinit as <-.
Qed.

Lemma TokenAuth_authentication_witness :
  exists s' headers',
    @authentication _ TokenAuth.auth
      (@authentication_calls _ TokenAuth.auth
         [∅; {[ "Authorization" := "Basic old" ]}] (TokenAuth.mk "abc", empty_world),
       {[ "Accept" := "*/*" ]})
    = (Ok tt, (s', headers')) /\
    headers' !! "Authorization" = Some "Bearer abc".
Proof.
  exact (TokenAuth_authentication "abc" (TokenAuth.mk "abc") empty_world
           [∅; {[ "Authorization" := "Basic old" ]}] {[ "Accept" := "*/*" ]} eq_refl).
Defined.

(** C8: for every implementation of [Auth], [authentication] leaves every
    key of [headers] other than "Authorization" as it was, and the
    instance and the world (so the record of network calls) end exactly as
    after reading the two properties: what reaches the network does so
    inside [token]. *)
Theorem authentication_frame_effect (A : Type) (impl : Auth A) (s : A * World)
    (headers : gmap string string) (k : string) :
  k <> "Authorization" ->
  snd (snd (@authentication A impl (s, headers))) !! k = headers !! k /\
  fst (snd (@authentication A impl (s, headers))) = snd (@read_properties A impl s) /\
  (forall (T : TokenAuth.t) (w : World),
      fst (snd (@authentication _ TokenAuth.auth (T, w, headers))) = (T, w)) /\
  (forall (E : Env) (J : JWTAuth.t) (w : World),
      fst (snd (@authentication _ (JWTAuth.auth E) (J, w, headers)))
      = snd (JWTAuth.token E (J, w))).
Proof.
  intros Hk. split; [|split; [|split]].
  - now apply authentication_frame.
  - apply authentication_state.
  - intros T w. now rewrite TokenAuth_authentication_step.
  - intros E J w. now rewrite authentication_state.
Qed.

Lemma authentication_frame_effect_witness :
  snd (snd (@authentication _ (JWTAuth.auth test_env)
              (test_jwt_auth, empty_world, {[ "Accept" := "*/*" ]}))) !! "Accept"
  = Some "*/*" /\
  network_calls
    (snd (fst (snd (@authentication _ (JWTAuth.auth test_env)
                      (test_jwt_auth, empty_world, {[ "Accept" := "*/*" ]})))))
  = network_calls (snd (snd (JWTAuth.token test_env (test_jwt_auth, empty_world)))).
Proof.
  destruct (authentication_frame_effect _ (JWTAuth.auth test_env)
              (test_jwt_auth, empty_world) {[ "Accept" := "*/*" ]} "Accept")
    as (Hframe & _ & _ & Hjwt); [discriminate|].
  split.
  - rewrite Hframe. reflexivity.
  - now rewrite Hjwt.
Defined.

(** ** Preconditions of the constructors *)

Example test_jwt_auth_init :
  JWTAuth.__init__ test_env (PyStr "c1") (PyStr "key") (PyStr "k1") (PyInt 100)
    (PyStr "https://api.coze.com") = Ok test_jwt_auth.
Proof. reflexivity. Qed.

(** C7: [TokenAuth(token)] raises [AssertionError] for a token that is not
    a [str] and for the empty [str], and returns the instance for any
    other [str]; [JWTAuth(...)] raises [AssertionError] when [ttl] is not
    an [int], when it is not positive, and when one of the four string
    arguments is not a [str]; when all these preconditions hold (and the
    URL parser accepts [base_url]) it returns the instance, with an empty
    cache.  A constructor is a pure function: nothing is read from or
    sent to the world before it fails. *)
Theorem constructor_preconditions (E : Env)
    (client_id private_key public_key_id ttl base_url : PyVal) :
  (forall token, isinstance_str token = false ->
     TokenAuth.__init__ token = Raise AssertionError) /\
  TokenAuth.__init__ (PyStr "") = Raise AssertionError /\
  (forall s, s <> "" -> TokenAuth.__init__ (PyStr s) = Ok (TokenAuth.mk s)) /\
  (isinstance_int ttl = false ->
     JWTAuth.__init__ E client_id private_key public_key_id ttl base_url
     = Raise AssertionError) /\
  (int_value ttl <= 0 ->
     JWTAuth.__init__ E client_id private_key public_key_id ttl base_url
     = Raise AssertionError) /\
  (isinstance_str client_id && isinstance_str private_key
     && isinstance_str public_key_id && isinstance_str base_url = false ->
     JWTAuth.__init__ E client_id private_key public_key_id ttl base_url
     = Raise AssertionError) /\
  (isinstance_str client_id = true -> isinstance_str private_key = true ->
   isinstance_str public_key_id = true -> isinstance_str base_url = true ->
   isinstance_int ttl = true -> 0 < int_value ttl ->
   forall netloc, urlparse_netloc E (str_value base_url) = Ok netloc ->
   exists self,
     JWTAuth.__init__ E client_id private_key public_key_id ttl base_url = Ok self /\
     JWTAuth._token self = None /\
     JWTAuth._ttl self = int_value ttl /\
     JWTAuth._client_id self = str_value client_id /\
     JWTAuth._base_url self = str_value base_url).
Proof.
  repeat split.
  - intros token Htok. unfold TokenAuth.__init__. now rewrite Htok.
  - intros s Hs. destruct s; [congruence|reflexivity].
  - intros Hint. unfold JWTAuth.__init__. rewrite Hint.
    destruct (isinstance_str client_id), (isinstance_str private_key),
      (isinstance_str public_key_id); reflexivity.
  - intros Hle. unfold JWTAuth.__init__.
    destruct (Z.ltb_spec 0 (int_value ttl)) as [Hlt|_]; [lia|].
    destruct (isinstance_str client_id), (isinstance_str private_key),
      (isinstance_str public_key_id), (isinstance_int ttl); reflexivity.
  - intros Hstr. unfold JWTAuth.__init__.
    destruct (isinstance_str client_id), (isinstance_str private_key),
      (isinstance_str public_key_id), (isinstance_int ttl),
      (0 <? int_value ttl), (isinstance_str base_url); try reflexivity; discriminate.
  - intros Hc Hp Hk Hb Hi Hpos netloc Hurl. unfold JWTAuth.__init__.
    rewrite Hc, Hp, Hk, Hb, Hi. cbn [negb].
    rewrite (proj2 (Z.ltb_lt _ _) Hpos). cbn [negb].
    unfold JWTOAuthApp.__init__, OAuthApp.__init__. rewrite Hurl.
    eexists. split; [reflexivity|]. now cbn.
Qed.

Lemma constructor_preconditions_witness :
  TokenAuth.__init__ PyNone = Raise AssertionError /\
  TokenAuth.__init__ (PyStr "abc") = Ok (TokenAuth.mk "abc") /\
  JWTAuth.__init__ test_env (PyStr "c1") (PyStr "key") (PyStr "k1") (PyStr "100")
    (PyStr "https://api.coze.com") = Raise AssertionError /\
  JWTAuth.__init__ test_env (PyStr "c1") (PyStr "key") (PyStr "k1") (PyInt 0)
    (PyStr "https://api.coze.com") = Raise AssertionError /\
  JWTAuth.__init__ test_env (PyStr "c1") (PyBytes []) (PyStr "k1") (PyInt 100)
    (PyStr "https://api.coze.com") = Raise AssertionError /\
  exists self,
    JWTAuth.__init__ test_env (PyStr "c1") (PyStr "key") (PyStr "k1") (PyInt 100)
      (PyStr "https://api.coze.com") = Ok self /\
    JWTAuth._token self = None.
Proof.
  split; [|split; [|split; [|split; [|split]]]].
  - exact (proj1 (constructor_preconditions test_env PyNone PyNone PyNone PyNone PyNone)
             PyNone eq_refl).
  - destruct (constructor_preconditions test_env PyNone PyNone PyNone PyNone PyNone)
      as (_ & _ & Hok & _).
    apply Hok. discriminate.
  - destruct (constructor_preconditions test_env (PyStr "c1") (PyStr "key") (PyStr "k1")
                (PyStr "100") (PyStr "https://api.coze.com")) as (_ & _ & _ & Hint & _).
    exact (Hint eq_refl).
  - destruct (constructor_preconditions test_env (PyStr "c1") (PyStr "key") (PyStr "k1")
                (PyInt 0) (PyStr "https://api.coze.com")) as (_ & _ & _ & _ & Hpos & _).
    apply Hpos. cbn. lia.
  - destruct (constructor_preconditions test_env (PyStr "c1") (PyBytes []) (PyStr "k1")
                (PyInt 100) (PyStr "https://api.coze.com"))
      as (_ & _ & _ & _ & _ & Hstr & _).
    exact (Hstr eq_refl).
  - destruct (constructor_preconditions test_env (PyStr "c1") (PyStr "key") (PyStr "k1")
                (PyInt 100) (PyStr "https://api.coze.com"))
      as (_ & _ & _ & _ & _ & _ & Hok).
    destruct (Hok eq_refl eq_refl eq_refl eq_refl eq_refl eq_refl "api.coze.com" eq_refl)
      as (self & Hself & Hnone & _).
    exists self. now split.
Defined.

(** ** Authorization URLs *)

Lemma oauth_url_no_challenge (E : Env) (self : OAuthApp.t) (redirect_uri state : string)
    (code_challenge code_challenge_method workspace_id : option string) :
  opt_truthy code_challenge = false ->
  OAuthApp._get_oauth_url E self redirect_uri state code_challenge code_challenge_method
    workspace_id
  = Ok (OAuthApp._get_oauth_url_uri E self workspace_id +:+ "?"
        +:+ base_query self redirect_uri state).
Proof.
  intros Hc. unfold OAuthApp._get_oauth_url, OAuthApp._get_oauth_url_params.
  rewrite Hc. reflexivity.
Qed.

Lemma oauth_url_challenge (E : Env) (self : OAuthApp.t) (redirect_uri state : string)
    (challenge method : string) (workspace_id : option string) :
  challenge <> "" ->
  OAuthApp._get_oauth_url E self redirect_uri state (Some challenge) (Some method)
    workspace_id
  = Ok (OAuthApp._get_oauth_url_uri E self workspace_id +:+ "?"
        +:+ pkce_query self redirect_uri state challenge method).
Proof.
  intros Hc. unfold OAuthApp._get_oauth_url, OAuthApp._get_oauth_url_params.
  destruct challenge; [congruence|]. reflexivity.
Qed.

Lemma oauth_url_challenge_no_method (E : Env) (self : OAuthApp.t)
    (redirect_uri state : string) (challenge : string) (workspace_id : option string) :
  challenge <> "" ->
  is_ok (OAuthApp._get_oauth_url E self redirect_uri state (Some challenge) None
           workspace_id) = false.
Proof.
  intros Hc. unfold OAuthApp._get_oauth_url, OAuthApp._get_oauth_url_params.
  destruct challenge; [congruence|]. reflexivity.
Qed.

Lemma map_result_Forall2 {A B} (f : A -> Result B) (l : list A) (l' : list B) :
  map_result f l = Ok l' -> Forall2 (fun a b => f a = Ok b) l l'.
Proof.
  revert l'. induction l as [|a l IH]; intros l' Hl; cbn in Hl.
  - injection Hl as <-. constructor.
  - destruct (f a) as [b|e] eqn:Hfa; [|discriminate].
    destruct (map_result f l) as [bs|e]; [|discriminate].
    injection Hl as <-. constructor; [exact Hfa|now apply IH].
Qed.

Lemma render_param_encoded (kv : string * option string) (part : string) :
  OAuthApp.render_param kv = Ok part -> encoded_param kv part.
Proof.
  unfold OAuthApp.render_param, encoded_param.
  destruct kv as [k [v|]]; cbn; [|discriminate].
  intros [= <-]. exists v. repeat split. apply quote_plus_str_encoded.
Qed.

(** C3, as amended: in the URL every call of the builder produces, the
    query is the "&"-join of one [key=value] item per parameter, with
    every value percent-encoded; the URL is on the path
    [{www_base_url}/api/permission/oauth2/authorize] when [workspace_id]
    is [None] or the empty string, and on the workspace-scoped path, which
    contains [workspace_id], exactly when [workspace_id] is given and not
    empty. *)
Theorem authorization_url (E : Env) (self : OAuthApp.t) (redirect_uri state : string)
    (code_challenge code_challenge_method workspace_id : option string) (url : string) :
  OAuthApp._get_oauth_url E self redirect_uri state code_challenge code_challenge_method
    workspace_id = Ok url ->
  exists parts,
    Forall2 encoded_param
      (OAuthApp._get_oauth_url_params self redirect_uri state code_challenge
         code_challenge_method) parts /\
    (workspace_id = None \/ workspace_id = Some "" ->
     url = (OAuthApp._get_www_base_url E self +:+ "/api/permission/oauth2/authorize")
           +:+ "?" +:+ str_join "&" parts) /\
    (forall w, workspace_id = Some w -> w <> "" ->
     url = (OAuthApp._get_www_base_url E self +:+ "/api/permission/oauth2/workspace_id/"
            +:+ w +:+ "/authorize") +:+ "?" +:+ str_join "&" parts).
Proof.
  unfold OAuthApp._get_oauth_url.
  destruct (map_result _ _) as [parts|e] eqn:Hparts; [|discriminate].
  intros [= <-]. exists parts. split; [|split].
  - apply map_result_Forall2 in Hparts.
    eapply Forall2_impl; [exact Hparts|]. intros kv part. apply render_param_encoded.
  - intros [->| ->]; reflexivity.
  - intros w -> Hw. unfold OAuthApp._get_oauth_url_uri.
    destruct w; [congruence|]. reflexivity.
Qed.

Lemma authorization_url_witness :
  exists parts,
    Forall2 encoded_param
      (OAuthApp._get_oauth_url_params (PKCEOAuthApp.base test_pkce_app) "https://a/cb" "s t"
         (Some "ch") (Some "S256")) parts /\
    "https://www.coze.com/api/permission/oauth2/workspace_id/w1/authorize?response_type=code&client_id=c1&redirect_uri=https%3A%2F%2Fa%2Fcb&state=s+t&code_challenge=ch&code_challenge_method=S256"
    = ("https://www.coze.com" +:+ "/api/permission/oauth2/workspace_id/" +:+ "w1"
       +:+ "/authorize") +:+ "?" +:+ str_join "&" parts.
Proof.
  destruct (authorization_url test_env (PKCEOAuthApp.base test_pkce_app) "https://a/cb" "s t"
              (Some "ch") (Some "S256") (Some "w1") _ eq_refl)
    as (parts & Hparts & _ & Hws).
  exists parts. split; [exact Hparts|].
  apply (Hws "w1" eq_refl). discriminate.
Defined.

(** C3, as stated, fails: with [workspace_id=""], which is provided, the
    builder stays on the path without a workspace. *)
Lemma authorization_url_counterexample :
  exists url,
    OAuthApp._get_oauth_url test_env (PKCEOAuthApp.base test_pkce_app) "r" "s" None None
      (Some "") = Ok url /\
    url = "https://www.coze.com/api/permission/oauth2/authorize?response_type=code&client_id=c1&redirect_uri=r&state=s" /\
    str_in "workspace_id" url = false.
Proof. eexists. repeat split. Qed.

(** ** PKCE *)

(** C5: with method "plain" the builder receives [code_verifier] itself
    as [code_challenge], with method "S256" it receives
    [gen_s256_code_challenge(code_verifier)]; a challenge that is not
    empty is the value of the parameter [code_challenge] and reaches the
    URL, percent-encoded, under that key. *)
Theorem pkce_code_challenge (E : Env) (self : PKCEOAuthApp.t)
    (redirect_uri state code_verifier : string) (workspace_id : option string) :
  PKCEOAuthApp.get_oauth_url E self redirect_uri state code_verifier "plain" workspace_id
  = OAuthApp._get_oauth_url E (PKCEOAuthApp.base self) redirect_uri state
      (Some code_verifier) (Some "plain") workspace_id /\
  PKCEOAuthApp.get_oauth_url E self redirect_uri state code_verifier "S256" workspace_id
  = OAuthApp._get_oauth_url E (PKCEOAuthApp.base self) redirect_uri state
      (Some (gen_s256_code_challenge E code_verifier)) (Some "S256") workspace_id /\
  (code_verifier <> "" ->
   dict_get "code_challenge"
     (OAuthApp._get_oauth_url_params (PKCEOAuthApp.base self) redirect_uri state
        (Some (PKCEOAuthApp.get_oauth_url_code_challenge E code_verifier "plain"))
        (Some "plain"))
   = Some (Some code_verifier) /\
   PKCEOAuthApp.get_oauth_url E self redirect_uri state code_verifier "plain" workspace_id
   = Ok (OAuthApp._get_oauth_url_uri E (PKCEOAuthApp.base self) workspace_id +:+ "?"
         +:+ pkce_query (PKCEOAuthApp.base self) redirect_uri state code_verifier "plain")) /\
  (gen_s256_code_challenge E code_verifier <> "" ->
   dict_get "code_challenge"
     (OAuthApp._get_oauth_url_params (PKCEOAuthApp.base self) redirect_uri state
        (Some (PKCEOAuthApp.get_oauth_url_code_challenge E code_verifier "S256"))
        (Some "S256"))
   = Some (Some (gen_s256_code_challenge E code_verifier)) /\
   PKCEOAuthApp.get_oauth_url E self redirect_uri state code_verifier "S256" workspace_id
   = Ok (OAuthApp._get_oauth_url_uri E (PKCEOAuthApp.base self) workspace_id +:+ "?"
         +:+ pkce_query (PKCEOAuthApp.base self) redirect_uri state
               (gen_s256_code_challenge E code_verifier) "S256")).
Proof.
  split; [reflexivity|]. split; [reflexivity|]. split.
  - intros Hv. split.
    + cbn. destruct code_verifier; [congruence|reflexivity].
    + unfold PKCEOAuthApp.get_oauth_url. cbn [PKCEOAuthApp.get_oauth_url_code_challenge String.eqb].
      change (PKCEOAuthApp.get_oauth_url_code_challenge E code_verifier "plain")
        with code_verifier.
      now apply oauth_url_challenge.
  - intros Hv. split.
    + change (PKCEOAuthApp.get_oauth_url_code_challenge E code_verifier "S256")
        with (gen_s256_code_challenge E code_verifier).
      unfold OAuthApp._get_oauth_url_params.
      destruct (gen_s256_code_challenge E code_verifier); [congruence|reflexivity].
    + unfold PKCEOAuthApp.get_oauth_url.
      change (PKCEOAuthApp.get_oauth_url_code_challenge E code_verifier "S256")
        with (gen_s256_code_challenge E code_verifier).
      now apply oauth_url_challenge.
Qed.

Lemma pkce_code_challenge_witness :
  PKCEOAuthApp.get_oauth_url test_env test_pkce_app "r" "s" "a verifier" "plain" None
  = Ok "https://www.coze.com/api/permission/oauth2/authorize?response_type=code&client_id=c1&redirect_uri=r&state=s&code_challenge=a+verifier&code_challenge_method=plain" /\
  PKCEOAuthApp.get_oauth_url test_env test_pkce_app "r" "s" "a verifier" "S256" None
  = Ok "https://www.coze.com/api/permission/oauth2/authorize?response_type=code&client_id=c1&redirect_uri=r&state=s&code_challenge=S256-a+verifier&code_challenge_method=S256".
Proof.
  destruct (pkce_code_challenge test_env test_pkce_app "r" "s" "a verifier" None)
    as (_ & _ & Hplain & Hs256).
  split.
  - refine (proj2 (Hplain _)). discriminate.
  - refine (proj2 (Hs256 _)). discriminate.
Defined.

(** C10: with an empty [code_verifier] and method "plain" the URL has the
    four basic parameters only, neither [code_challenge] nor
    [code_challenge_method]; and an empty [workspace_id] gives the same
    URL as no [workspace_id], on the path without a workspace. *)
Theorem optional_parameters_by_truthiness (E : Env) (self : PKCEOAuthApp.t)
    (redirect_uri state code_verifier code_challenge_method : string)
    (workspace_id : option string) :
  dict_keys
    (OAuthApp._get_oauth_url_params (PKCEOAuthApp.base self) redirect_uri state
       (Some (PKCEOAuthApp.get_oauth_url_code_challenge E "" "plain")) (Some "plain"))
  = ["response_type"; "client_id"; "redirect_uri"; "state"] /\
  PKCEOAuthApp.get_oauth_url E self redirect_uri state "" "plain" workspace_id
  = Ok (OAuthApp._get_oauth_url_uri E (PKCEOAuthApp.base self) workspace_id +:+ "?"
        +:+ base_query (PKCEOAuthApp.base self) redirect_uri state) /\
  PKCEOAuthApp.get_oauth_url E self redirect_uri state "" "plain" workspace_id
  = OAuthApp._get_oauth_url E (PKCEOAuthApp.base self) redirect_uri state None None
      workspace_id /\
  PKCEOAuthApp.get_oauth_url E self redirect_uri state code_verifier code_challenge_method
    (Some "")
  = PKCEOAuthApp.get_oauth_url E self redirect_uri state code_verifier code_challenge_method
      None /\
  OAuthApp._get_oauth_url_uri E (PKCEOAuthApp.base self) (Some "")
  = OAuthApp._get_www_base_url E (PKCEOAuthApp.base self)
    +:+ "/api/permission/oauth2/authorize".
Proof. repeat split. Qed.

(** ** The JWT-bearer exchange *)

(** C2: every call [get_access_token(ttl)] records, in this order, the
    call, one reading [now] of the clock, one random [jti] and one
    signature of a payload with [iat = now] and [exp = now + 3600],
    whatever [ttl] is; when the signer returns the assertion, exactly one
    request follows: a POST to the token endpoint whose body has
    [duration_seconds = ttl] and the JWT-bearer [grant_type], with the
    assertion as Bearer credential.  When the signer raises, nothing is
    sent. *)
Theorem get_access_token_exchange (E : Env) (self : JWTOAuthApp.t) (ttl : Z) (w : World) :
  let out := JWTOAuthApp.get_access_token E self ttl w in
  let now := clock E (trace w ++ [EvGetAccessToken ttl]) in
  exists header payload jti signed rest,
    trace (snd out)
    = (trace w ++ [ EvGetAccessToken ttl; EvTime now; EvRandomHex 16 jti;
                    EvJwtEncode header payload (JWTOAuthApp._private_key self) signed ]
         ++ rest)%list /\
    dict_get "iat" payload = Some (PyInt now) /\
    dict_get "exp" payload = Some (PyInt (now + 3600)) /\
    match signed with
    | Raise e => rest = [] /\ fst out = Raise e
    | Ok jwt_token =>
        exists req resp body headers,
          rest = [EvRequest req resp] /\
          req_method req = "post" /\
          req_url req
          = OAuthApp._base_url (JWTOAuthApp.base self) +:+ "/api/permission/oauth2/token" /\
          req_body req = Some body /\
          dict_get "duration_seconds" body = Some (PyInt ttl) /\
          dict_get "grant_type" body
          = Some (PyStr "urn:ietf:params:oauth:grant-type:jwt-bearer") /\
          req_headers req = Some headers /\
          headers !! "Authorization" = Some ("Bearer " +:+ jwt_token)
    end.
Proof.
  cbv zeta.
  unfold JWTOAuthApp.get_access_token, JWTOAuthApp._gen_jwt, bind, ret,
    time_time_int, call_random_hex, call_jwt_encode, requester_request, emit.
  cbn [trace heap fst snd].
  match goal with
  | |- context [jwt_encode E ?h ?p ?k] =>
      exists h, p; destruct (jwt_encode E h p k) as [jwt_token|e] eqn:Hsign
  end.
  - match goal with
    | |- context [transport E ?tr ?r] => destruct (transport E tr r) as [tok|e] eqn:Hresp
    end; cbn [trace heap fst snd];
      do 3 eexists; (split; [rewrite <- !app_assoc; cbn [app]; reflexivity|]);
      (split; [reflexivity|]); (split; [reflexivity|]);
      do 4 eexists; repeat split; apply lookup_singleton_eq.
  - cbn [trace heap fst snd]. do 2 eexists. exists []. split.
    + rewrite <- !app_assoc. cbn [app]. reflexivity.
    + repeat split.
Qed.

(** ** The token cache of [JWTAuth] *)

Lemma exchanges_time (t : Z) (w : World) : exchanges (emit (EvTime t) w) = exchanges w.
Proof.
  unfold exchanges, emit. cbn [trace]. rewrite List.filter_app, List.length_app. cbn. lia.
Qed.

Ltac count_exchanges :=
  unfold exchanges, emit; cbn [trace];
  rewrite !List.filter_app, !List.length_app; cbn; lia.

(** One call of [get_access_token] is one exchange; a token it returns is
    a new object at the end of the heap, the one parsed from the response
    to the last request; the objects already there stay as they are. *)
Lemma get_access_token_effect (E : Env) (self : JWTOAuthApp.t) (ttl : Z) (w : World) :
  let out := JWTOAuthApp.get_access_token E self ttl w in
  exchanges (snd out) = S (exchanges w) /\
  match fst out with
  | Ok l =>
      l = length (heap w) /\
      exists req tok,
        heap (snd out) = (heap w ++ [tok])%list /\
        last (trace (snd out)) = Some (EvRequest req (Ok tok))
  | Raise _ => heap (snd out) = heap w
  end.
Proof.
  cbv zeta.
  unfold JWTOAuthApp.get_access_token, JWTOAuthApp._gen_jwt, bind, ret,
    time_time_int, call_random_hex, call_jwt_encode, requester_request.
  match goal with
  | |- context [jwt_encode E ?h ?p ?k] => destruct (jwt_encode E h p k) as [jwt_token|e]
  end.
  - match goal with
    | |- context [transport E ?tr ?r] => destruct (transport E tr r) as [tok|e]
    end; cbn [fst snd heap].
    + split; [count_exchanges|].
      split; [reflexivity|]. do 2 eexists. split; [reflexivity|].
      cbn [trace]. apply last_snoc.
    + split; [count_exchanges|reflexivity].
  - cbn [fst snd]. split; [count_exchanges|reflexivity].
Qed.

Lemma generate_token_empty (E : Env) (self : JWTAuth.t) (w : World) :
  JWTAuth._token self = None ->
  JWTAuth._generate_token E (self, w) =
  match JWTOAuthApp.get_access_token E (JWTAuth._oauth_cli self) (JWTAuth._ttl self) w with
  | (Ok l, w') => (Ok l, (JWTAuth.set_token (Some l) self, w'))
  | (Raise e, w') => (Raise e, (self, w'))
  end.
Proof.
  intros Hnone. unfold JWTAuth._generate_token. rewrite Hnone.
  unfold bind, on_world.
  destruct (JWTOAuthApp.get_access_token _ _ _ _) as [[l|e] w']; reflexivity.
Qed.

Lemma generate_token_cached (E : Env) (self : JWTAuth.t) (w : World) (l : loc)
    (tok : OAuthToken.t) :
  JWTAuth._token self = Some l ->
  heap w !! l = Some tok ->
  JWTAuth._generate_token E (self, w) =
  let w1 := emit (EvTime (clock E (trace w))) w in
  if clock E (trace w) <? OAuthToken.expires_in tok
  then (Ok l, (self, w1))
  else
    match JWTOAuthApp.get_access_token E (JWTAuth._oauth_cli self) (JWTAuth._ttl self) w1 with
    | (Ok l', w') => (Ok l', (JWTAuth.set_token (Some l') self, w'))
    | (Raise e, w') => (Raise e, (self, w'))
    end.
Proof.
  intros Hsome Hl. unfold JWTAuth._generate_token. rewrite Hsome.
  unfold bind, on_world, time_time_int, deref. cbn [snd heap emit]. rewrite Hl.
  destruct (_ <? _); [reflexivity|].
  destruct (JWTOAuthApp.get_access_token _ _ _ _) as [[l'|e] w']; reflexivity.
Qed.

(** What [token] leaves behind when [_generate_token] renews the cache
    from the world [w0]. *)
Lemma token_renew_outcome (E : Env) (self : JWTAuth.t) (w w0 : World) :
  JWTAuth._generate_token E (self, w) =
  match JWTOAuthApp.get_access_token E (JWTAuth._oauth_cli self) (JWTAuth._ttl self) w0 with
  | (Ok l, w') => (Ok l, (JWTAuth.set_token (Some l) self, w'))
  | (Raise e, w') => (Raise e, (self, w'))
  end ->
  let out := JWTAuth.token E (self, w) in
  exchanges (snd (snd out)) = S (exchanges w0) /\
  (forall l tok, heap w0 !! l = Some tok -> heap (snd (snd out)) !! l = Some tok) /\
  (forall e, fst out = Raise e -> fst (snd out) = self /\ heap (snd (snd out)) = heap w0) /\
  (forall s, fst out = Ok s ->
     exists l' tok' req,
       JWTAuth._token (fst (snd out)) = Some l' /\
       heap w0 !! l' = None /\
       heap (snd (snd out)) !! l' = Some tok' /\
       last (trace (snd (snd out))) = Some (EvRequest req (Ok tok')) /\
       s = OAuthToken.access_token tok').
Proof.
  intros Hgen. cbv zeta. unfold JWTAuth.token, bind. rewrite Hgen.
  unfold deref, ret.
  pose proof (get_access_token_effect E (JWTAuth._oauth_cli self) (JWTAuth._ttl self) w0)
    as Heff. cbv zeta in Heff.
  destruct (JWTOAuthApp.get_access_token _ _ _ _) as [[l|e] w']; cbn [fst snd] in *.
  - destruct Heff as (Hex & -> & req & tok & Hheap & Hlast).
    rewrite Hheap. rewrite list_lookup_middle by reflexivity. cbn [fst snd].
    split; [exact Hex|]. split; [|split].
    + intros l tok0 Hl. rewrite Hheap. now apply lookup_app_l_Some.
    + discriminate.
    + intros s [= <-]. exists (length (heap w0)), tok, req. repeat split.
      * apply lookup_ge_None. lia.
      * rewrite Hheap. now apply list_lookup_middle.
      * exact Hlast.
  - destruct Heff as (Hex & Hheap). split; [exact Hex|]. split; [|split].
    + intros l tok Hl. now rewrite Hheap.
    + intros e0 _. now split.
    + discriminate.
Qed.

(** C1: a call of [token] on an instance with an empty cache, as the
    constructor leaves it, makes exactly one exchange; a call whose clock
    reading is strictly before the cached token's [expires_in] makes none
    and returns the cached [access_token], cache unchanged; a call whose
    clock reading is at or after it makes exactly one more exchange and,
    when that exchange returns a token, caches that new token in place of
    the old one and returns its [access_token]. *)
Theorem JWTAuth_token_caching (E : Env) (self : JWTAuth.t) (w : World) :
  let out := JWTAuth.token E (self, w) in
  let self' := fst (snd out) in
  let w' := snd (snd out) in
  (JWTAuth._token self = None ->
   exchanges w' = S (exchanges w) /\
   (forall s, fst out = Ok s ->
      exists l' tok' req,
        JWTAuth._token self' = Some l' /\
        heap w !! l' = None /\
        heap w' !! l' = Some tok' /\
        last (trace w') = Some (EvRequest req (Ok tok')) /\
        s = OAuthToken.access_token tok')) /\
  (forall l tok,
     JWTAuth._token self = Some l -> heap w !! l = Some tok ->
     (clock E (trace w) < OAuthToken.expires_in tok ->
      exchanges w' = exchanges w /\
      fst out = Ok (OAuthToken.access_token tok) /\
      self' = self /\
      heap w' = heap w) /\
     (OAuthToken.expires_in tok <= clock E (trace w) ->
      exchanges w' = S (exchanges w) /\
      heap w' !! l = Some tok /\
      (forall s, fst out = Ok s ->
         exists l' tok' req,
           JWTAuth._token self' = Some l' /\
           l' <> l /\
           heap w' !! l' = Some tok' /\
           last (trace w') = Some (EvRequest req (Ok tok')) /\
           s = OAuthToken.access_token tok'))).
Proof.
  cbv zeta. split.
  - intros Hnone.
    destruct (token_renew_outcome E self w w (generate_token_empty E self w Hnone))
      as (Hex & _ & _ & Hok).
    split; [exact Hex|exact Hok].
  - intros l tok Hsome Hl.
    pose proof (generate_token_cached E self w l tok Hsome Hl) as Hgen. cbv zeta in Hgen.
    split.
    + intros Hfresh. apply Z.ltb_lt in Hfresh. rewrite Hfresh in Hgen.
      unfold JWTAuth.token, bind. rewrite Hgen. unfold deref, ret.
      cbn [snd heap emit]. rewrite Hl. cbn [fst snd heap].
      repeat split. apply exchanges_time.
    + intros Hexpired. apply Z.ltb_ge in Hexpired. rewrite Hexpired in Hgen.
      destruct (token_renew_outcome E self w _ Hgen) as (Hex & Hkeep & _ & Hok).
      rewrite exchanges_time in Hex. split; [exact Hex|].
      split; [apply Hkeep; exact Hl|].
      intros s Hs. destruct (Hok s Hs) as (l' & tok' & req & Hc & Hnew & Hl' & Hlast & ->).
      exists l', tok', req. repeat split; try assumption.
      intros ->. cbn [heap emit] in Hnew. congruence.
Qed.

Lemma JWTAuth_token_caching_witness :
  exchanges (snd (snd (JWTAuth.token test_env (test_jwt_auth, empty_world)))) = 1%nat /\
  (exchanges (snd (snd (JWTAuth.token test_env after_first_token))) = 1%nat /\
   fst (JWTAuth.token test_env after_first_token) = Ok "tttt") /\
  exchanges (snd (snd (JWTAuth.token late_env after_first_token))) = 2%nat.
Proof.
  split; [|split].
  - exact (proj1 (proj1 (JWTAuth_token_caching test_env test_jwt_auth empty_world) eq_refl)).
  - destruct (proj2 (JWTAuth_token_caching test_env (fst after_first_token)
                       (snd after_first_token))
                0%nat (OAuthToken.mk "tttt" 2000 "" "Bearer") eq_refl eq_refl)
      as [Hfresh _].
    destruct (Hfresh eq_refl) as (Hex & Hret & _).
    split; [exact Hex|exact Hret].
  - destruct (proj2 (JWTAuth_token_caching late_env (fst after_first_token)
                       (snd after_first_token))
                0%nat (OAuthToken.mk "tttt" 2000 "" "Bearer") eq_refl eq_refl)
      as [_ Hexpired].
    refine (proj1 (Hexpired _)). vm_compute. discriminate.
Defined.

(** ** Token objects *)

(** C9, as stated, fails: nothing checks the [access_token] of a token
    that is issued; one with an empty [access_token] is cached and
    returned like any other. *)
Lemma access_token_nonempty_counterexample :
  exists l tok,
    JWTAuth._token (fst (snd (JWTAuth.token empty_token_env (test_jwt_auth, empty_world))))
    = Some l /\
    heap (snd (snd (JWTAuth.token empty_token_env (test_jwt_auth, empty_world)))) !! l
    = Some tok /\
    OAuthToken.access_token tok = "" /\
    fst (JWTAuth.token empty_token_env (test_jwt_auth, empty_world)) = Ok "".
Proof. exists 0%nat. eexists. repeat split. Qed.

Lemma requester_request_heap (E : Env) (method url : string)
    (headers : option (gmap string string)) (body : option (dict PyVal)) (w : World) :
  let out := requester_request E method url headers body w in
  (forall l tok, heap w !! l = Some tok -> heap (snd out) !! l = Some tok) /\
  (forall l', fst out = Ok l' -> heap w !! l' = None /\ is_Some (heap (snd out) !! l')).
Proof.
  cbv zeta. unfold requester_request.
  destruct (transport E _ _) as [tok|e]; cbn [fst snd heap emit].
  - split.
    + intros l tok0 Hl. now apply lookup_app_l_Some.
    + intros l' [= <-]. split; [apply lookup_ge_None; lia|].
      exists tok. now apply list_lookup_middle.
  - split; [tauto|discriminate].
Qed.

Lemma generate_token_dangling (E : Env) (self : JWTAuth.t) (w : World) (l : loc) :
  JWTAuth._token self = Some l ->
  heap w !! l = None ->
  JWTAuth._generate_token E (self, w)
  = (Raise (AttributeError "no object at this location"),
     (self, emit (EvTime (clock E (trace w))) w)).
Proof.
  intros Hsome Hl. unfold JWTAuth._generate_token. rewrite Hsome.
  unfold bind, on_world, time_time_int, deref. cbn [snd heap emit]. now rewrite Hl.
Qed.

Lemma renew_heap (E : Env) (self : JWTAuth.t) (w0 : World) :
  let out :=
    match JWTOAuthApp.get_access_token E (JWTAuth._oauth_cli self) (JWTAuth._ttl self) w0 with
    | (Ok l, w') => (Ok l, (JWTAuth.set_token (Some l) self, w'))
    | (Raise e, w') => (Raise e, (self, w'))
    end in
  (forall l tok, heap w0 !! l = Some tok -> heap (snd (snd out)) !! l = Some tok) /\
  (JWTAuth._token (fst (snd out)) <> JWTAuth._token self ->
   exists l' tok',
     fst out = Ok l' /\
     JWTAuth._token (fst (snd out)) = Some l' /\
     heap w0 !! l' = None /\
     heap (snd (snd out)) !! l' = Some tok').
Proof.
  cbv zeta.
  pose proof (get_access_token_effect E (JWTAuth._oauth_cli self) (JWTAuth._ttl self) w0)
    as Heff. cbv zeta in Heff.
  destruct (JWTOAuthApp.get_access_token _ _ _ _) as [[l|e] w']; cbn [fst snd] in *.
  - destruct Heff as (_ & -> & req & tok & Hheap & _). split.
    + intros l tok0 Hl. rewrite Hheap. now apply lookup_app_l_Some.
    + intros _. exists (length (heap w0)), tok. repeat split.
      * apply lookup_ge_None. lia.
      * rewrite Hheap. now apply list_lookup_middle.
  - destruct Heff as (_ & Hheap). split.
    + intros l tok Hl. now rewrite Hheap.
    + intros Hne. congruence.
Qed.

(** C9, as amended: the [access_token] of an issued token is a string,
    which may be empty; [_generate_token] never changes a token object
    that exists, and when it changes the cache, the cache then refers to
    an object that did not exist before, the one it returns.  The same
    holds of [PKCEOAuthApp.refresh_access_token]: the token it returns is
    a new object and the existing ones stay as they are. *)
Theorem token_replaced_not_mutated (E : Env) (self : JWTAuth.t) (app : PKCEOAuthApp.t)
    (refresh_token : string) (w : World) :
  let out := JWTAuth._generate_token E (self, w) in
  let out2 := PKCEOAuthApp.refresh_access_token E app refresh_token w in
  (forall l tok, heap w !! l = Some tok -> heap (snd (snd out)) !! l = Some tok) /\
  (JWTAuth._token (fst (snd out)) <> JWTAuth._token self ->
   exists l' tok',
     fst out = Ok l' /\
     JWTAuth._token (fst (snd out)) = Some l' /\
     heap w !! l' = None /\
     heap (snd (snd out)) !! l' = Some tok') /\
  (forall l tok, heap w !! l = Some tok -> heap (snd out2) !! l = Some tok) /\
  (forall l', fst out2 = Ok l' -> heap w !! l' = None /\ is_Some (heap (snd out2) !! l')).
Proof.
  cbv zeta.
  match goal with |- ?P /\ ?Q /\ ?R => cut ((P /\ Q) /\ R); [tauto|split] end.
  - destruct (JWTAuth._token self) as [l|] eqn:Hcache.
    + destruct (heap w !! l) as [tok|] eqn:Hl.
      * rewrite (generate_token_cached E self w l tok Hcache Hl). cbv zeta.
        destruct (_ <? _).
        -- cbn [fst snd heap emit]. split; [tauto|congruence].
        -- rewrite <- Hcache. apply (renew_heap E self (emit _ w)).
      * rewrite (generate_token_dangling E self w l Hcache Hl).
        cbn [fst snd heap emit]. split; [tauto|congruence].
    + rewrite (generate_token_empty E self w Hcache). rewrite <- Hcache.
      apply (renew_heap E self w).
  - apply requester_request_heap.
Qed.

Lemma token_replaced_not_mutated_witness :
  heap (snd (snd (JWTAuth._generate_token late_env after_first_token))) !! 0%nat
  = Some (OAuthToken.mk "tttt" 2000 "" "Bearer") /\
  exists tok',
    JWTAuth._token (fst (snd (JWTAuth._generate_token late_env after_first_token)))
    = Some 1%nat /\
    heap (snd after_first_token) !! 1%nat = None /\
    heap (snd (snd (JWTAuth._generate_token late_env after_first_token))) !! 1%nat
    = Some tok'.
Proof.
  destruct (token_replaced_not_mutated late_env (fst after_first_token) test_pkce_app ""
              (snd after_first_token)) as (Hkeep & Hnew & _).
  split.
  - apply Hkeep. reflexivity.
  - destruct Hnew as (l' & tok' & Hret & Hcache & Hfresh & Hobj); [discriminate|].
    injection Hret as <-. exists tok'. repeat split; assumption.
Defined.

(** When the server is down the exchange is still made, the error reaches
    the caller, and the cache stays empty. *)
Example token_server_down :
  let out := JWTAuth.token offline_env (test_jwt_auth, empty_world) in
  fst out = Raise (TransportError "connection refused") /\
  exchanges (snd (snd out)) = 1%nat /\
  JWTAuth._token (fst (snd out)) = None.
Proof. repeat split. Qed.

(** * Further properties *)

(** ** Encoding of query values *)

Lemma unquote_plus_byte (c : ascii) (rest : string) :
  unquote_plus (plus_byte c +:+ rest) = String c (unquote_plus rest).
Proof. each_ascii c; reflexivity. Qed.

Lemma unquote_plus_bytes (s : string) : unquote_plus (plus_bytes s) = s.
Proof.
  induction s as [|c s IH]; [reflexivity|].
  cbn [plus_bytes]. rewrite unquote_plus_byte. now rewrite IH.
Qed.

(** X1: decoding an encoded query value gives the value back, so two
    different values never have the same encoding. *)
Theorem quote_plus_round_trip (a b : string) :
  unquote_plus (quote_plus_str a) = a /\
  (quote_plus_str a = quote_plus_str b -> a = b).
Proof.
  split.
  - rewrite quote_plus_str_bytes. apply unquote_plus_bytes.
  - intros Heq. rewrite <- (unquote_plus_bytes a), <- (unquote_plus_bytes b).
    rewrite <- !quote_plus_str_bytes. now rewrite Heq.
Qed.

Lemma quote_plus_round_trip_witness :
  unquote_plus (quote_plus_str "a b&c=%") = "a b&c=%" /\ "a b" = "a b".
Proof.
  split.
  - exact (proj1 (quote_plus_round_trip "a b&c=%" "")).
  - exact (proj2 (quote_plus_round_trip "a b" "a b") eq_refl).
Defined.

Lemma count_char_app (c : ascii) (a b : string) :
  count_char c (a +:+ b) = (count_char c a + count_char c b)%nat.
Proof.
  induction a as [|d a IH]; [reflexivity|].
  change (String d a +:+ b) with (String d (a +:+ b)).
  cbn [count_char]. rewrite IH. lia.
Qed.

Lemma count_sep_plus_byte (c : ascii) (rest : string) :
  count_char "&" (plus_byte c +:+ rest) = count_char "&" rest /\
  count_char "=" (plus_byte c +:+ rest) = count_char "=" rest /\
  count_char "?" (plus_byte c +:+ rest) = count_char "?" rest /\
  count_char "#" (plus_byte c +:+ rest) = count_char "#" rest.
Proof. each_ascii c; repeat split. Qed.

Lemma count_sep_quote_plus (s : string) :
  count_char "&" (quote_plus_str s) = 0%nat /\
  count_char "=" (quote_plus_str s) = 0%nat /\
  count_char "?" (quote_plus_str s) = 0%nat /\
  count_char "#" (quote_plus_str s) = 0%nat.
Proof.
  rewrite quote_plus_str_bytes.
  induction s as [|c s IH]; [repeat split|].
  cbn [plus_bytes]. destruct (count_sep_plus_byte c (plus_bytes s)) as (-> & -> & -> & ->).
  exact IH.
Qed.

Ltac count_separators :=
  rewrite !count_char_app;
  repeat match goal with
         | |- context [count_char _ (quote_plus_str ?v)] =>
             let H1 := fresh in let H2 := fresh in let H3 := fresh in let H4 := fresh in
             destruct (count_sep_quote_plus v) as (H1 & H2 & H3 & H4);
             rewrite ?H1, ?H2, ?H3, ?H4; clear H1 H2 H3 H4
         end;
  reflexivity.

Lemma base_query_separators (self : OAuthApp.t) (redirect_uri state : string) :
  count_char "&" (base_query self redirect_uri state) = 3%nat /\
  count_char "=" (base_query self redirect_uri state) = 4%nat /\
  count_char "?" (base_query self redirect_uri state) = 0%nat /\
  count_char "#" (base_query self redirect_uri state) = 0%nat.
Proof. unfold base_query. repeat split; count_separators. Qed.

Lemma pkce_query_separators (self : OAuthApp.t)
    (redirect_uri state challenge method : string) :
  count_char "&" (pkce_query self redirect_uri state challenge method) = 5%nat /\
  count_char "=" (pkce_query self redirect_uri state challenge method) = 6%nat /\
  count_char "?" (pkce_query self redirect_uri state challenge method) = 0%nat /\
  count_char "#" (pkce_query self redirect_uri state challenge method) = 0%nat.
Proof. unfold pkce_query. repeat split; count_separators. Qed.

(** X2: whatever the client id, redirect URI, state, challenge and method
    contain, the query of a URL the builder produces has one [=] per
    parameter, one [&] between two parameters, and no [?] or [#]: a value
    cannot add a parameter or end the query. *)
Theorem query_separators (E : Env) (self : OAuthApp.t) (redirect_uri state : string)
    (code_challenge code_challenge_method workspace_id : option string) (url : string) :
  OAuthApp._get_oauth_url E self redirect_uri state code_challenge code_challenge_method
    workspace_id = Ok url ->
  let n :=
    length (OAuthApp._get_oauth_url_params self redirect_uri state code_challenge
              code_challenge_method) in
  exists query,
    url = OAuthApp._get_oauth_url_uri E self workspace_id +:+ "?" +:+ query /\
    count_char "=" query = n /\
    count_char "&" query = Nat.pred n /\
    count_char "?" query = 0%nat /\
    count_char "#" query = 0%nat.
Proof.
  intros Hurl. cbv zeta.
  destruct (opt_truthy code_challenge) eqn:Hc.
  - destruct code_challenge as [[|c0 ch]|]; try discriminate.
    destruct code_challenge_method as [method|].
    + rewrite oauth_url_challenge in Hurl by discriminate. injection Hurl as <-.
      eexists. split; [reflexivity|].
      destruct (pkce_query_separators self redirect_uri state (String c0 ch) method)
        as (-> & -> & -> & ->).
      repeat split.
    + pose proof (oauth_url_challenge_no_method E self redirect_uri state (String c0 ch)
                    workspace_id) as Hraise.
      rewrite Hurl in Hraise. discriminate Hraise. discriminate.
  - rewrite oauth_url_no_challenge in Hurl by exact Hc. injection Hurl as <-.
    eexists. split; [reflexivity|].
    unfold OAuthApp._get_oauth_url_params. rewrite Hc.
    destruct (base_query_separators self redirect_uri state) as (-> & -> & -> & ->).
    repeat split.
Qed.

Lemma query_separators_witness :
  exists query,
    "https://www.coze.com/api/permission/oauth2/authorize?response_type=code&client_id=c1&redirect_uri=a%26b%3Dc&state=%3F%23"
    = "https://www.coze.com/api/permission/oauth2/authorize" +:+ "?" +:+ query /\
    count_char "=" query = 4%nat /\
    count_char "&" query = 3%nat.
Proof.
  destruct (query_separators test_env (PKCEOAuthApp.base test_pkce_app) "a&b=c" "?#"
              None None None _ eq_refl) as (query & Hq & Heq & Hamp & _).
  exists query. repeat split; assumption.
Defined.

(** X3: the builder raises, with a [TypeError], exactly when it is given a
    non-empty [code_challenge] and no [code_challenge_method]; with no
    challenge, or an empty one, it returns the URL without PKCE
    parameters whatever [code_challenge_method] is. *)
Theorem oauth_url_errors (E : Env) (self : OAuthApp.t) (redirect_uri state : string)
    (code_challenge code_challenge_method workspace_id : option string) :
  (opt_truthy code_challenge = true -> code_challenge_method = None ->
   exists msg,
     OAuthApp._get_oauth_url E self redirect_uri state code_challenge
       code_challenge_method workspace_id = Raise (TypeError msg)) /\
  (opt_truthy code_challenge = true -> code_challenge_method <> None ->
   is_ok (OAuthApp._get_oauth_url E self redirect_uri state code_challenge
            code_challenge_method workspace_id) = true) /\
  (opt_truthy code_challenge = false ->
   OAuthApp._get_oauth_url E self redirect_uri state code_challenge code_challenge_method
     workspace_id
   = OAuthApp._get_oauth_url E self redirect_uri state None None workspace_id /\
   is_ok (OAuthApp._get_oauth_url E self redirect_uri state code_challenge
            code_challenge_method workspace_id) = true).
Proof.
  split; [|split].
  - intros Hc ->. destruct code_challenge as [[|c0 ch]|]; try discriminate.
    eexists. reflexivity.
  - intros Hc Hm. destruct code_challenge as [[|c0 ch]|]; try discriminate.
    destruct code_challenge_method as [method|]; [|congruence].
    now rewrite oauth_url_challenge.
  - intros Hc. rewrite (oauth_url_no_challenge E self _ _ code_challenge) by exact Hc.
    now rewrite (oauth_url_no_challenge E self _ _ None) by reflexivity.
Qed.

Lemma oauth_url_errors_witness :
  (exists msg,
     OAuthApp._get_oauth_url test_env (PKCEOAuthApp.base test_pkce_app) "r" "s" (Some "ch")
       None None = Raise (TypeError msg)) /\
  OAuthApp._get_oauth_url test_env (PKCEOAuthApp.base test_pkce_app) "r" "s" (Some "")
    (Some "S256") None
  = OAuthApp._get_oauth_url test_env (PKCEOAuthApp.base test_pkce_app) "r" "s" None None None.
Proof.
  split.
  - exact (proj1 (oauth_url_errors test_env (PKCEOAuthApp.base test_pkce_app) "r" "s"
                    (Some "ch") None None) eq_refl eq_refl).
  - destruct (oauth_url_errors test_env (PKCEOAuthApp.base test_pkce_app) "r" "s"
                (Some "") (Some "S256") None) as (_ & _ & Hnone).
    exact (proj1 (Hnone eq_refl)).
Defined.

(** ** PKCE, beyond the two documented methods *)

(** X4: [PKCEOAuthApp.get_oauth_url] always returns a URL; and for any
    method other than "plain", whether "S256" or not, the challenge is
    [gen_s256_code_challenge(code_verifier)] while [code_challenge_method]
    carries the method as it was given. *)
Theorem pkce_other_methods (E : Env) (self : PKCEOAuthApp.t)
    (redirect_uri state code_verifier method : string) (workspace_id : option string) :
  is_ok (PKCEOAuthApp.get_oauth_url E self redirect_uri state code_verifier method
           workspace_id) = true /\
  (method <> "plain" ->
   PKCEOAuthApp.get_oauth_url E self redirect_uri state code_verifier method workspace_id
   = OAuthApp._get_oauth_url E (PKCEOAuthApp.base self) redirect_uri state
       (Some (gen_s256_code_challenge E code_verifier)) (Some method) workspace_id /\
   (gen_s256_code_challenge E code_verifier <> "" ->
    PKCEOAuthApp.get_oauth_url E self redirect_uri state code_verifier method workspace_id
    = Ok (OAuthApp._get_oauth_url_uri E (PKCEOAuthApp.base self) workspace_id +:+ "?"
          +:+ pkce_query (PKCEOAuthApp.base self) redirect_uri state
                (gen_s256_code_challenge E code_verifier) method))).
Proof.
  split.
  - unfold PKCEOAuthApp.get_oauth_url.
    destruct (PKCEOAuthApp.get_oauth_url_code_challenge E code_verifier method) as [|c0 ch].
    + now rewrite oauth_url_no_challenge.
    + now rewrite oauth_url_challenge.
  - intros Hm. unfold PKCEOAuthApp.get_oauth_url, PKCEOAuthApp.get_oauth_url_code_challenge.
    rewrite (proj2 (String.eqb_neq method "plain") Hm).
    split; [reflexivity|]. intros Hch. now apply oauth_url_challenge.
Qed.

Lemma pkce_other_methods_witness :
  PKCEOAuthApp.get_oauth_url test_env test_pkce_app "r" "s" "v" "sha256" None
  = Ok "https://www.coze.com/api/permission/oauth2/authorize?response_type=code&client_id=c1&redirect_uri=r&state=s&code_challenge=S256-v&code_challenge_method=sha256".
Proof.
  destruct (pkce_other_methods test_env test_pkce_app "r" "s" "v" "sha256" None)
    as (_ & Hother).
  destruct Hother as (_ & Hurl); [discriminate|].
  apply Hurl. discriminate.
Defined.

(** ** Requests to the token endpoint *)

Lemma requester_request_run (E : Env) (method url : string)
    (headers : option (gmap string string)) (body : option (dict PyVal)) (w : World) :
  let req := mkRequest method url headers body in
  let out := requester_request E method url headers body w in
  trace (snd out) = (trace w ++ [EvRequest req (transport E (trace w) req)])%list /\
  match transport E (trace w) req with
  | Ok tok =>
      fst out = Ok (length (heap w)) /\
      heap (snd out) = (heap w ++ [tok])%list /\
      heap (snd out) !! length (heap w) = Some tok
  | Raise e => fst out = Raise e /\ heap (snd out) = heap w
  end.
Proof.
  cbv zeta. unfold requester_request.
  destruct (transport E _ _) as [tok|e]; cbn [fst snd trace heap emit].
  - repeat split. now apply list_lookup_middle.
  - repeat split.
Qed.

Lemma filter_snoc_false {A} (f : A -> bool) (l : list A) (x : A) :
  f x = false -> List.filter f (l ++ [x]) = List.filter f l.
Proof. intros Hx. rewrite List.filter_app. cbn. rewrite Hx. apply app_nil_r. Qed.

(** X5: [PKCEOAuthApp.refresh_access_token] and
    [PKCEOAuthApp.get_access_token] each send exactly one request and do
    nothing else: a POST to [{base_url}/api/permission/oauth2/token]
    without headers, whose body is the refresh grant, resp. the
    authorization-code grant with the [code_verifier]; no assertion is
    signed.  What the transport answers is what the caller gets: its
    error unchanged, or a new object holding the token it returned. *)
Theorem pkce_token_requests (E : Env) (self : PKCEOAuthApp.t)
    (refresh_token redirect_uri code code_verifier : string) (w : World) :
  let url := OAuthApp._base_url (PKCEOAuthApp.base self) +:+ "/api/permission/oauth2/token" in
  let client_id := OAuthApp._client_id (PKCEOAuthApp.base self) in
  let req1 :=
    mkRequest "post" url None
      (Some [ ("grant_type", PyStr "refresh_token"); ("client_id", PyStr client_id);
              ("refresh_token", PyStr refresh_token) ]) in
  let req2 :=
    mkRequest "post" url None
      (Some [ ("grant_type", PyStr "authorization_code"); ("code", PyStr code);
              ("client_id", PyStr client_id); ("redirect_uri", PyStr redirect_uri);
              ("code_verifier", PyStr code_verifier) ]) in
  let out1 := PKCEOAuthApp.refresh_access_token E self refresh_token w in
  let out2 := PKCEOAuthApp.get_access_token E self redirect_uri code code_verifier w in
  (trace (snd out1) = (trace w ++ [EvRequest req1 (transport E (trace w) req1)])%list /\
   match transport E (trace w) req1 with
   | Ok tok =>
       fst out1 = Ok (length (heap w)) /\
       heap (snd out1) = (heap w ++ [tok])%list /\
       heap (snd out1) !! length (heap w) = Some tok
   | Raise e => fst out1 = Raise e /\ heap (snd out1) = heap w
   end) /\
  (trace (snd out2) = (trace w ++ [EvRequest req2 (transport E (trace w) req2)])%list /\
   match transport E (trace w) req2 with
   | Ok tok =>
       fst out2 = Ok (length (heap w)) /\
       heap (snd out2) = (heap w ++ [tok])%list /\
       heap (snd out2) !! length (heap w) = Some tok
   | Raise e => fst out2 = Raise e /\ heap (snd out2) = heap w
   end).
Proof.
  cbv zeta. split.
  - apply (requester_request_run E "post").
  - apply (requester_request_run E "post").
Qed.

(** ** The assertion of the JWT-bearer exchange *)

Lemma get_access_token_trace (E : Env) (self : JWTOAuthApp.t) (ttl : Z) (w : World) :
  let out := JWTOAuthApp.get_access_token E self ttl w in
  let now := clock E (trace w ++ [EvGetAccessToken ttl]) in
  let jti := random_hex E (trace w ++ [EvGetAccessToken ttl; EvTime now]) 16 in
  let header :=
    [ ("alg", PyStr "RS256"); ("typ", PyStr "JWT");
      ("kid", PyStr (JWTOAuthApp._public_key_id self)) ] in
  let payload :=
    [ ("iss", PyStr (OAuthApp._client_id (JWTOAuthApp.base self)));
      ("aud", PyStr (OAuthApp._api_endpoint (JWTOAuthApp.base self)));
      ("iat", PyInt now); ("exp", PyInt (now + 3600)); ("jti", PyStr jti) ] in
  let key := JWTOAuthApp._private_key self in
  let signed := jwt_encode E header payload key in
  let tr :=
    (trace w ++ [ EvGetAccessToken ttl; EvTime now; EvRandomHex 16 jti;
                  EvJwtEncode header payload key signed ])%list in
  match signed with
  | Raise e => fst out = Raise e /\ trace (snd out) = tr /\ heap (snd out) = heap w
  | Ok jwt_token =>
      let req :=
        mkRequest "post"
          (OAuthApp._base_url (JWTOAuthApp.base self) +:+ "/api/permission/oauth2/token")
          (Some {[ "Authorization" := "Bearer " +:+ jwt_token ]})
          (Some [ ("duration_seconds", PyInt ttl);
                  ("grant_type", PyStr "urn:ietf:params:oauth:grant-type:jwt-bearer") ]) in
      trace (snd out) = (tr ++ [EvRequest req (transport E tr req)])%list /\
      match transport E tr req with
      | Ok tok => fst out = Ok (length (heap w)) /\ heap (snd out) = (heap w ++ [tok])%list
      | Raise e => fst out = Raise e /\ heap (snd out) = heap w
      end
  end.
Proof.
  cbv zeta.
  unfold JWTOAuthApp.get_access_token, JWTOAuthApp._gen_jwt, bind, ret,
    time_time_int, call_random_hex, call_jwt_encode, requester_request, emit.
  cbn [trace heap fst snd]. rewrite <- !app_assoc. cbn [app].
  destruct (jwt_encode E _ _ _) as [jwt_token|e]; cbn [trace heap fst snd].
  - rewrite <- !app_assoc. cbn [app].
    destruct (transport E _ _) as [tok|e]; cbn [trace heap fst snd];
      rewrite <- ?app_assoc; repeat split.
  - rewrite <- ?app_assoc. repeat split.
Qed.

(** X6: for an app built by [JWTOAuthApp(client_id, private_key,
    public_key_id, base_url)], every [get_access_token] signs, with
    [private_key], a header [{alg: RS256, typ: JWT, kid: public_key_id}]
    and a payload whose [iss] is [client_id], whose [aud] is the network
    location of [base_url] and whose [jti] is the 16-byte random value
    drawn in this call; a request that follows goes to
    [{base_url}/api/permission/oauth2/token] with the signed assertion as
    its only header, [Authorization: Bearer ...]. *)
Theorem jwt_assertion_contents (E : Env)
    (client_id private_key public_key_id base_url : string) (app : JWTOAuthApp.t)
    (ttl : Z) (w : World) :
  JWTOAuthApp.__init__ E client_id private_key public_key_id base_url = Ok app ->
  exists netloc now jti header payload signed rest,
    urlparse_netloc E base_url = Ok netloc /\
    trace (snd (JWTOAuthApp.get_access_token E app ttl w))
    = (trace w ++ [ EvGetAccessToken ttl; EvTime now; EvRandomHex 16 jti;
                    EvJwtEncode header payload private_key signed ] ++ rest)%list /\
    header = [ ("alg", PyStr "RS256"); ("typ", PyStr "JWT"); ("kid", PyStr public_key_id) ] /\
    dict_get "iss" payload = Some (PyStr client_id) /\
    dict_get "aud" payload = Some (PyStr netloc) /\
    dict_get "jti" payload = Some (PyStr jti) /\
    dict_keys payload = ["iss"; "aud"; "iat"; "exp"; "jti"] /\
    match signed with
    | Raise _ => rest = []
    | Ok jwt_token =>
        exists resp,
          rest =
          [ EvRequest
              (mkRequest "post" (base_url +:+ "/api/permission/oauth2/token")
                 (Some {[ "Authorization" := "Bearer " +:+ jwt_token ]})
                 (Some [ ("duration_seconds", PyInt ttl);
                         ("grant_type",
                          PyStr "urn:ietf:params:oauth:grant-type:jwt-bearer") ]))
              resp ]
    end.
Proof.
  unfold JWTOAuthApp.__init__, OAuthApp.__init__.
  destruct (urlparse_netloc E base_url) as [netloc|e] eqn:Hurl; [|discriminate].
  intros [= <-].
  pose proof (get_access_token_trace E
                (JWTOAuthApp.mk (OAuthApp.mk client_id base_url netloc "") ""
                   private_key public_key_id) ttl w) as Hrun.
  cbv zeta in Hrun.
  cbn [JWTOAuthApp.base JWTOAuthApp._private_key JWTOAuthApp._public_key_id
         OAuthApp._client_id OAuthApp._api_endpoint OAuthApp._base_url] in Hrun.
  exists netloc. do 4 eexists.
  destruct (jwt_encode E _ _ _) as [jwt_token|e] eqn:Hsign.
  - destruct Hrun as (Htrace & _). eexists (Ok jwt_token), _.
    split; [reflexivity|]. split.
    + rewrite Htrace, <- app_assoc. reflexivity.
    + repeat split. eexists. reflexivity.
  - destruct Hrun as (_ & Htrace & _). exists (Raise e), [].
    split; [reflexivity|]. split.
    + rewrite Htrace. reflexivity.
    + repeat split.
Qed.

Lemma jwt_assertion_contents_witness :
  exists netloc now jti header payload signed rest,
    urlparse_netloc test_env "https://api.coze.com" = Ok netloc /\
    trace (snd (JWTOAuthApp.get_access_token test_env test_jwt_app 100 empty_world))
    = ([] ++ [ EvGetAccessToken 100; EvTime now; EvRandomHex 16 jti;
               EvJwtEncode header payload "key" signed ] ++ rest)%list /\
    dict_get "iss" payload = Some (PyStr "c1") /\
    dict_get "aud" payload = Some (PyStr netloc).
Proof.
  destruct (jwt_assertion_contents test_env "c1" "key" "k1" "https://api.coze.com"
              test_jwt_app 100 empty_world eq_refl)
    as (netloc & now & jti & header & payload & signed & rest
        & Hurl & Htrace & _ & Hiss & Haud & _).
  exists netloc, now, jti, header, payload, signed, rest. repeat split; assumption.
Defined.

(** ** The token cache over many calls *)

Lemma renew_token_run (E : Env) (self : JWTAuth.t) (w w0 : World) :
  JWTAuth._generate_token E (self, w) =
  match JWTOAuthApp.get_access_token E (JWTAuth._oauth_cli self) (JWTAuth._ttl self) w0 with
  | (Ok l, w') => (Ok l, (JWTAuth.set_token (Some l) self, w'))
  | (Raise e, w') => (Raise e, (self, w'))
  end ->
  match JWTOAuthApp.get_access_token E (JWTAuth._oauth_cli self) (JWTAuth._ttl self) w0 with
  | (Ok l', w') =>
      exists tok',
        heap w' !! l' = Some tok' /\
        JWTAuth.token E (self, w)
        = (Ok (OAuthToken.access_token tok'), (JWTAuth.set_token (Some l') self, w'))
  | (Raise e, w') => JWTAuth.token E (self, w) = (Raise e, (self, w'))
  end.
Proof.
  intros Hgen. unfold JWTAuth.token, bind. rewrite Hgen. unfold deref, ret.
  pose proof (get_access_token_effect E (JWTAuth._oauth_cli self) (JWTAuth._ttl self) w0)
    as Heff. cbv zeta in Heff.
  destruct (JWTOAuthApp.get_access_token _ _ _ _) as [[l|e] w']; cbn [fst snd] in *.
  - destruct Heff as (_ & -> & req & tok & Hheap & _).
    exists tok. rewrite Hheap, list_lookup_middle by reflexivity. now split.
  - reflexivity.
Qed.

(** The three ways a reading of [token] can go. *)
Lemma token_run (E : Env) (self : JWTAuth.t) (w : World) :
  let out := JWTAuth.token E (self, w) in
  let w1 := emit (EvTime (clock E (trace w))) w in
  (exists l tok,
     JWTAuth._token self = Some l /\ heap w !! l = Some tok /\
     clock E (trace w) < OAuthToken.expires_in tok /\
     out = (Ok (OAuthToken.access_token tok), (self, w1))) \/
  (exists l,
     JWTAuth._token self = Some l /\ heap w !! l = None /\
     out = (Raise (AttributeError "no object at this location"), (self, w1))) \/
  (exists w0,
     (w0 = w /\ JWTAuth._token self = None \/
      w0 = w1 /\ exists l tok,
        JWTAuth._token self = Some l /\ heap w !! l = Some tok /\
        OAuthToken.expires_in tok <= clock E (trace w)) /\
     match JWTOAuthApp.get_access_token E (JWTAuth._oauth_cli self) (JWTAuth._ttl self) w0 with
     | (Ok l', w') =>
         exists tok',
           heap w' !! l' = Some tok' /\
           out = (Ok (OAuthToken.access_token tok'), (JWTAuth.set_token (Some l') self, w'))
     | (Raise e, w') => out = (Raise e, (self, w'))
     end).
Proof.
  cbv zeta. destruct (JWTAuth._token self) as [l|] eqn:Hcache.
  - destruct (heap w !! l) as [tok|] eqn:Hl.
    + pose proof (generate_token_cached E self w l tok Hcache Hl) as Hgen. cbv zeta in Hgen.
      destruct (Z.ltb_spec (clock E (trace w)) (OAuthToken.expires_in tok)) as [Hlt|Hge].
      * left. exists l, tok. repeat split; try assumption.
        unfold JWTAuth.token, bind. rewrite Hgen. unfold deref, ret.
        cbn [snd heap emit]. now rewrite Hl.
      * right. right. eexists. split.
        -- right. split; [reflexivity|]. exists l, tok. now repeat split.
        -- apply renew_token_run. exact Hgen.
    + right. left. exists l. repeat split; try assumption.
      unfold JWTAuth.token, bind.
      now rewrite (generate_token_dangling E self w l Hcache Hl).
  - right. right. exists w. split; [left; now split|].
    apply renew_token_run. now apply generate_token_empty.
Qed.

Lemma get_access_token_events (E : Env) (self : JWTOAuthApp.t) (ttl : Z) (w : World) :
  let out := JWTOAuthApp.get_access_token E self ttl w in
  exchange_events (snd out) = (exchange_events w ++ [EvGetAccessToken ttl])%list /\
  (forall e, fst out = Raise e ->
     (exists header payload key,
        last (trace (snd out)) = Some (EvJwtEncode header payload key (Raise e)) /\
        request_events (snd out) = request_events w) \/
     (exists req, last (trace (snd out)) = Some (EvRequest req (Raise e)))).
Proof.
  pose proof (get_access_token_trace E self ttl w) as Hrun. cbv zeta in Hrun |- *.
  destruct (jwt_encode E _ _ _) as [jwt_token|e0].
  - destruct Hrun as (Htrace & Hout). unfold exchange_events. rewrite Htrace.
    split.
    + rewrite !List.filter_app. cbn. now rewrite app_nil_r.
    + intros e He. right. destruct (transport E _ _) as [tok|e1].
      * destruct Hout as (Hok & _). congruence.
      * destruct Hout as (Hraise & _). eexists.
        rewrite last_snoc. repeat f_equal. congruence.
  - destruct Hrun as (Hraise & Htrace & _). unfold exchange_events, request_events.
    rewrite Htrace. split.
    + rewrite !List.filter_app. cbn. reflexivity.
    + intros e He. left. do 3 eexists. split.
      * rewrite last_app_cons. cbn. repeat f_equal. congruence.
      * rewrite List.filter_app. cbn. apply app_nil_r.
Qed.

Lemma exchange_events_time (t : Z) (w : World) :
  exchange_events (emit (EvTime t) w) = exchange_events w.
Proof. unfold exchange_events, emit. cbn [trace]. now apply filter_snoc_false. Qed.

Lemma request_events_time (t : Z) (w : World) :
  request_events (emit (EvTime t) w) = request_events w.
Proof. unfold request_events, emit. cbn [trace]. now apply filter_snoc_false. Qed.

(** X7: reading [token] changes no field of the instance but the cache:
    the client id, the ttl, the base URL and the owned app stay as the
    constructor set them; and it makes either no exchange or exactly one,
    which asks for the instance's [ttl]. *)
Theorem token_changes_only_cache (E : Env) (self : JWTAuth.t) (w : World) :
  let out := JWTAuth.token E (self, w) in
  let self' := fst (snd out) in
  let w' := snd (snd out) in
  JWTAuth._client_id self' = JWTAuth._client_id self /\
  JWTAuth._ttl self' = JWTAuth._ttl self /\
  JWTAuth._base_url self' = JWTAuth._base_url self /\
  JWTAuth._oauth_cli self' = JWTAuth._oauth_cli self /\
  (exchange_events w' = exchange_events w \/
   exchange_events w' = (exchange_events w ++ [EvGetAccessToken (JWTAuth._ttl self)])%list).
Proof.
  cbv zeta.
  destruct (token_run E self w) as [(l & tok & _ & _ & _ & ->)|[(l & _ & _ & ->)|Hrenew]].
  - cbn [fst snd]. repeat split. left. apply exchange_events_time.
  - cbn [fst snd]. repeat split. left. apply exchange_events_time.
  - destruct Hrenew as (w0 & Hw0 & Hrun).
    pose proof (get_access_token_events E (JWTAuth._oauth_cli self) (JWTAuth._ttl self) w0)
      as (Hev & _). cbv zeta in Hev.
    assert (Hsame : exchange_events w0 = exchange_events w).
    { destruct Hw0 as [(-> & _)|(-> & _)]; [reflexivity|apply exchange_events_time]. }
    rewrite Hsame in Hev.
    destruct (JWTOAuthApp.get_access_token _ _ _ _) as [[l'|e] w'']; cbn [fst snd] in *.
    + destruct Hrun as (tok' & _ & ->). cbn [fst snd]. repeat split. now right.
    + rewrite Hrun. cbn [fst snd]. repeat split. now right.
Qed.

(** X8: for an instance whose cache, if any, refers to a token object,
    an exception out of [token] is the one the signer or the transport
    raised in this call, the last thing that happened; the cache and the
    token objects are then as before the call, and when it was the signer
    no request was sent. *)
Theorem token_errors_are_collaborator_errors (E : Env) (self : JWTAuth.t) (w : World)
    (e : Exn) :
  cache_wf (self, w) ->
  fst (JWTAuth.token E (self, w)) = Raise e ->
  let w' := snd (snd (JWTAuth.token E (self, w))) in
  fst (snd (JWTAuth.token E (self, w))) = self /\
  heap w' = heap w /\
  ((exists header payload key,
      last (trace w') = Some (EvJwtEncode header payload key (Raise e)) /\
      request_events w' = request_events w) \/
   (exists req, last (trace w') = Some (EvRequest req (Raise e)))).
Proof.
  intros Hwf Hraise. cbv zeta.
  destruct (token_run E self w) as [(l & tok & _ & _ & _ & Hout)|[(l & Hc & Hl & _)|Hrenew]].
  - rewrite Hout in Hraise. discriminate.
  - unfold cache_wf in Hwf. cbn [fst snd] in Hwf. rewrite Hc, Hl in Hwf.
    now destruct Hwf.
  - destruct Hrenew as (w0 & Hw0 & Hrun).
    pose proof (get_access_token_events E (JWTAuth._oauth_cli self) (JWTAuth._ttl self) w0)
      as (_ & Hprov).
    pose proof (get_access_token_effect E (JWTAuth._oauth_cli self) (JWTAuth._ttl self) w0)
      as (_ & Hheap).
    cbv zeta in Hprov, Hheap.
    assert (Hsame : request_events w0 = request_events w /\ heap w0 = heap w).
    { destruct Hw0 as [(-> & _)|(-> & _)]; [now split|].
      split; [apply request_events_time|reflexivity]. }
    destruct Hsame as (Hreq & Hh).
    destruct (JWTOAuthApp.get_access_token _ _ _ _) as [[l'|e0] w'']; cbn [fst snd] in *.
    + destruct Hrun as (tok' & _ & Hout). rewrite Hout in Hraise. discriminate.
    + rewrite Hrun in Hraise |- *. cbn [fst snd] in *. injection Hraise as ->.
      split; [reflexivity|]. split; [congruence|].
      destruct (Hprov e eq_refl) as [(h & p & k & Hlast & Hr)|Hlast].
      * left. exists h, p, k. split; [exact Hlast|congruence].
      * now right.
Qed.

Lemma token_errors_are_collaborator_errors_witness :
  fst (snd (JWTAuth.token bad_key_env (test_jwt_auth, empty_world))) = test_jwt_auth /\
  request_events (snd (snd (JWTAuth.token bad_key_env (test_jwt_auth, empty_world)))) = [].
Proof.
  destruct (token_errors_are_collaborator_errors bad_key_env test_jwt_auth empty_world
              (SignError "invalid key") I eq_refl) as (Hself & _ & Hprov).
  split; [exact Hself|].
  destruct Hprov as [(h & p & k & _ & Hreq)|(req & Hlast)].
  - exact Hreq.
  - discriminate Hlast.
Defined.

Lemma cache_wf_token (E : Env) (s : JWTAuth.t * World) :
  cache_wf s -> cache_wf (snd (JWTAuth.token E s)).
Proof.
  destruct s as [self w]. intros Hwf.
  destruct (token_run E self w) as [(l & tok & Hc & Hl & _ & ->)|[(l & Hc & Hl & _)|Hrenew]].
  - unfold cache_wf. cbn [fst snd heap emit]. rewrite Hc. now exists tok.
  - unfold cache_wf in Hwf. cbn [fst snd] in Hwf. rewrite Hc, Hl in Hwf. now destruct Hwf.
  - destruct Hrenew as (w0 & Hw0 & Hrun).
    pose proof (get_access_token_effect E (JWTAuth._oauth_cli self) (JWTAuth._ttl self) w0)
      as (_ & Hheap). cbv zeta in Hheap.
    assert (Hh : heap w0 = heap w).
    { destruct Hw0 as [(-> & _)|(-> & _)]; reflexivity. }
    destruct (JWTOAuthApp.get_access_token _ _ _ _) as [[l'|e0] w'']; cbn [fst snd] in *.
    + destruct Hrun as (tok' & Hl' & ->). unfold cache_wf. cbn [fst snd JWTAuth._token
        JWTAuth.set_token]. now exists tok'.
    + rewrite Hrun. unfold cache_wf in *. cbn [fst snd] in *.
      rewrite Hheap, Hh. exact Hwf.
Qed.

(** X9: the cache of a [JWTAuth] never refers to a missing object: this
    holds of every instance the constructor returns, and any number of
    readings of [token] and of calls of [authentication] keep it. *)
Theorem cache_reference_invariant (E : Env) (s : JWTAuth.t * World) :
  (forall client_id private_key public_key_id ttl base_url self w,
     JWTAuth.__init__ E client_id private_key public_key_id ttl base_url = Ok self ->
     cache_wf (self, w)) /\
  (cache_wf s ->
   (forall n, cache_wf (token_calls E n s)) /\
   (forall hs, cache_wf (@authentication_calls _ (JWTAuth.auth E) hs s))).
Proof.
  split.
  - intros client_id private_key public_key_id ttl base_url self w.
    unfold JWTAuth.__init__.
    repeat match goal with
           | |- context [if ?b then _ else _] => destruct b; [discriminate|]
           end.
    destruct (JWTOAuthApp.__init__ _ _ _ _ _) as [cli|e]; [|discriminate].
    intros [= <-]. exact I.
  - intros Hwf. split.
    + intros n. revert s Hwf. induction n as [|n IH]; intros s Hwf; [exact Hwf|].
      cbn [token_calls]. apply IH. now apply cache_wf_token.
    + intros hs. revert s Hwf. induction hs as [|h hs IH]; intros s Hwf; [exact Hwf|].
      cbn [authentication_calls]. apply IH.
      rewrite authentication_state. unfold read_properties, bind.
      cbn [token_type token JWTAuth.auth JWTAuth.token_type ret].
      now apply cache_wf_token.
Qed.

Lemma cache_reference_invariant_witness :
  cache_wf (token_calls late_env 3 after_first_token).
Proof.
  destruct (cache_reference_invariant late_env after_first_token) as (_ & Hkeep).
  refine (proj1 (Hkeep _) 3%nat). exists (OAuthToken.mk "tttt" 2000 "" "Bearer").
  reflexivity.
Defined.

(** X10: when an implementation's [token] raises, [authentication] raises
    the same exception and [headers] is exactly as it was, an earlier
    "Authorization" value included; when it returns, [headers] is the old
    mapping with the one key set to the type, a space and the token. *)
Theorem authentication_outcome (A : Type) (impl : Auth A) (s : A * World)
    (headers : gmap string string) :
  let out := @authentication A impl (s, headers) in
  (forall e, fst out = Raise e ->
     snd (snd out) = headers /\ fst (@read_properties A impl s) = Raise e) /\
  (fst out = Ok tt ->
     exists ty tk,
       fst (@token_type A impl s) = Ok ty /\
       fst (@read_properties A impl s) = Ok tk /\
       snd (snd out) = <["Authorization" := ty +:+ " " +:+ tk]> headers).
Proof.
  cbv zeta. rewrite authentication_unfold. unfold read_properties, bind.
  destruct (token_type s) as [[ty|e0] s1].
  - destruct (token s1) as [[tk|e1] s2]; cbn [fst snd].
    + split; [discriminate|]. intros _. now exists ty, tk.
    + split; [|discriminate]. intros e [= <-]. now split.
  - cbn [fst snd]. split; [|discriminate]. intros e [= <-]. now split.
Qed.

Lemma authentication_outcome_witness :
  snd (snd (@authentication _ (JWTAuth.auth offline_env)
              (test_jwt_auth, empty_world, {[ "Authorization" := "Bearer old" ]})))
  = {[ "Authorization" := "Bearer old" ]}.
Proof.
  destruct (authentication_outcome _ (JWTAuth.auth offline_env) (test_jwt_auth, empty_world)
              {[ "Authorization" := "Bearer old" ]}) as (Hfail & _).
  exact (proj1 (Hfail (TransportError "connection refused") eq_refl)).
Defined.

Lemma token_fresh_step (E : Env) (self : JWTAuth.t) (w : World) (l : loc)
    (tok : OAuthToken.t) :
  JWTAuth._token self = Some l ->
  heap w !! l = Some tok ->
  clock E (trace w) < OAuthToken.expires_in tok ->
  JWTAuth.token E (self, w)
  = (Ok (OAuthToken.access_token tok), (self, emit (EvTime (clock E (trace w))) w)).
Proof.
  intros Hc Hl Hlt.
  pose proof (generate_token_cached E self w l tok Hc Hl) as Hgen. cbv zeta in Hgen.
  rewrite (proj2 (Z.ltb_lt _ _) Hlt) in Hgen.
  unfold JWTAuth.token, bind. rewrite Hgen. unfold deref, ret.
  cbn [snd heap emit]. now rewrite Hl.
Qed.

(** X11: while the clock stays before the cached token's [expires_in],
    any number of readings of [token] make no exchange and send no
    request, leave the instance and the token objects as they are, and
    each returns the cached [access_token]. *)
Theorem token_calls_while_fresh (E : Env) (self : JWTAuth.t) (w : World) (l : loc)
    (tok : OAuthToken.t) (n : nat) :
  JWTAuth._token self = Some l ->
  heap w !! l = Some tok ->
  (forall tr, clock E tr < OAuthToken.expires_in tok) ->
  let s := token_calls E n (self, w) in
  fst s = self /\
  heap (snd s) = heap w /\
  exchange_events (snd s) = exchange_events w /\
  request_events (snd s) = request_events w /\
  length (trace (snd s)) = (length (trace w) + n)%nat /\
  fst (JWTAuth.token E s) = Ok (OAuthToken.access_token tok).
Proof.
  intros Hc Hl Hclock. cbv zeta. revert w Hl.
  induction n as [|n IH]; intros w Hl.
  - cbn [token_calls fst snd]. repeat split; [lia|].
    now rewrite (token_fresh_step E self w l tok Hc Hl (Hclock _)).
  - cbn [token_calls]. rewrite (token_fresh_step E self w l tok Hc Hl (Hclock _)).
    cbn [snd].
    destruct (IH (emit (EvTime (clock E (trace w))) w) Hl)
      as (Hself & Hheap & Hex & Hreq & Hlen & Hret).
    rewrite Hself, Hheap, Hex, Hreq, Hlen. repeat split.
    + apply exchange_events_time.
    + apply request_events_time.
    + cbn [trace emit]. rewrite List.length_app. cbn. lia.
    + exact Hret.
Qed.

Lemma token_calls_while_fresh_witness :
  exchange_events (snd (token_calls frozen_env 5 after_first_token))
  = [EvGetAccessToken 100] /\
  fst (JWTAuth.token frozen_env (token_calls frozen_env 5 after_first_token)) = Ok "tttt".
Proof.
  destruct (token_calls_while_fresh frozen_env (fst after_first_token)
              (snd after_first_token) 0%nat (OAuthToken.mk "tttt" 2000 "" "Bearer") 5
              eq_refl eq_refl (fun _ => eq_refl)) as (_ & _ & Hex & _ & _ & Hret).
  split; [exact Hex|exact Hret].
Defined.

(** X12: whenever [token] returns, what it returns is the [access_token]
    of the object the cache refers to after the call; and a second
    reading, if the clock is then still before that token's [expires_in],
    returns the same string without any exchange. *)
Theorem token_returns_cached (E : Env) (self : JWTAuth.t) (w : World) (s : string) :
  fst (JWTAuth.token E (self, w)) = Ok s ->
  let self' := fst (snd (JWTAuth.token E (self, w))) in
  let w' := snd (snd (JWTAuth.token E (self, w))) in
  exists l tok,
    JWTAuth._token self' = Some l /\
    heap w' !! l = Some tok /\
    OAuthToken.access_token tok = s /\
    (clock E (trace w') < OAuthToken.expires_in tok ->
     fst (JWTAuth.token E (self', w')) = Ok s /\
     fst (snd (JWTAuth.token E (self', w'))) = self' /\
     exchange_events (snd (snd (JWTAuth.token E (self', w')))) = exchange_events w').
Proof.
  intros Hok. cbv zeta.
  assert (Hcached : exists l tok,
             JWTAuth._token (fst (snd (JWTAuth.token E (self, w)))) = Some l /\
             heap (snd (snd (JWTAuth.token E (self, w)))) !! l = Some tok /\
             OAuthToken.access_token tok = s).
  { destruct (token_run E self w)
      as [(l & tok & Hc & Hl & _ & Hout)|[(l & _ & _ & Hout)|Hrenew]].
    - rewrite Hout in Hok |- *. cbn [fst snd heap emit] in *. injection Hok as <-.
      now exists l, tok.
    - rewrite Hout in Hok. discriminate.
    - destruct Hrenew as (w0 & _ & Hrun).
      destruct (JWTOAuthApp.get_access_token _ _ _ _) as [[l'|e0] w''].
      + destruct Hrun as (tok' & Hl' & Hout). rewrite Hout in Hok |- *.
        cbn [fst snd] in *. injection Hok as <-. now exists l', tok'.
      + rewrite Hrun in Hok. discriminate. }
  destruct Hcached as (l & tok & Hc & Hl & Hs). exists l, tok.
  split; [exact Hc|]. split; [exact Hl|]. split; [exact Hs|].
  intros Hlt. rewrite (token_fresh_step E _ _ l tok Hc Hl Hlt). cbn [fst snd].
  split; [now rewrite Hs|]. split; [reflexivity|]. apply exchange_events_time.
Qed.

Lemma token_returns_cached_witness :
  fst (JWTAuth.token test_env (snd (JWTAuth.token test_env (test_jwt_auth, empty_world))))
  = Ok "tttt".
Proof.
  destruct (token_returns_cached test_env test_jwt_auth empty_world "tttt" eq_refl)
    as (l & tok & Hc & Hl & _ & Hnext).
  vm_compute in Hc. injection Hc as <-.
  vm_compute in Hl. injection Hl as <-.
  exact (proj1 (Hnext eq_refl)).
Defined.

(** ** Construction of [JWTAuth] *)

(** X13: an instance of [JWTAuth] exists only if every precondition held:
    it then has a positive [ttl], an empty cache, and an owned app with
    the same client id and base URL, the given keys and no www override;
    and when the preconditions hold but the URL parser rejects
    [base_url], the constructor raises the parser's exception. *)
Theorem JWTAuth_init_converse (E : Env)
    (client_id private_key public_key_id ttl base_url : PyVal) :
  (forall self,
     JWTAuth.__init__ E client_id private_key public_key_id ttl base_url = Ok self ->
     isinstance_str client_id = true /\ isinstance_str private_key = true /\
     isinstance_str public_key_id = true /\ isinstance_str base_url = true /\
     isinstance_int ttl = true /\
     0 < JWTAuth._ttl self /\ JWTAuth._ttl self = int_value ttl /\
     JWTAuth._token self = None /\
     OAuthApp._client_id (JWTOAuthApp.base (JWTAuth._oauth_cli self)) = JWTAuth._client_id self /\
     OAuthApp._base_url (JWTOAuthApp.base (JWTAuth._oauth_cli self)) = JWTAuth._base_url self /\
     OAuthApp._www_base_url (JWTOAuthApp.base (JWTAuth._oauth_cli self)) = "" /\
     JWTOAuthApp._private_key (JWTAuth._oauth_cli self) = str_value private_key /\
     JWTOAuthApp._public_key_id (JWTAuth._oauth_cli self) = str_value public_key_id /\
     urlparse_netloc E (str_value base_url)
     = Ok (OAuthApp._api_endpoint (JWTOAuthApp.base (JWTAuth._oauth_cli self)))) /\
  (forall e,
     isinstance_str client_id = true -> isinstance_str private_key = true ->
     isinstance_str public_key_id = true -> isinstance_str base_url = true ->
     isinstance_int ttl = true -> 0 < int_value ttl ->
     urlparse_netloc E (str_value base_url) = Raise e ->
     JWTAuth.__init__ E client_id private_key public_key_id ttl base_url = Raise e).
Proof.
  split.
  - intros self. unfold JWTAuth.__init__.
    destruct (isinstance_str client_id); [|discriminate].
    destruct (isinstance_str private_key); [|discriminate].
    destruct (isinstance_str public_key_id); [|discriminate].
    destruct (isinstance_int ttl); [|discriminate].
    destruct (Z.ltb_spec 0 (int_value ttl)) as [Hpos|_]; [|discriminate].
    destruct (isinstance_str base_url); [|discriminate].
    cbn [negb]. unfold JWTOAuthApp.__init__, OAuthApp.__init__.
    destruct (urlparse_netloc E (str_value base_url)) as [netloc|e]; [|discriminate].
    intros [= <-]. cbn. repeat split. exact Hpos.
  - intros e Hc Hp Hk Hb Hi Hpos Hurl. unfold JWTAuth.__init__.
    rewrite Hc, Hp, Hk, Hb, Hi, (proj2 (Z.ltb_lt _ _) Hpos). cbn [negb].
    unfold JWTOAuthApp.__init__. now rewrite Hurl.
Qed.

Lemma JWTAuth_init_converse_witness :
  isinstance_int (PyBool true) = true /\
  0 < JWTAuth._ttl (JWTAuth.mk "c1" 1 "https://api.coze.com" None test_jwt_app).
Proof.
  destruct (proj1 (JWTAuth_init_converse test_env (PyStr "c1") (PyStr "key") (PyStr "k1")
                     (PyBool true) (PyStr "https://api.coze.com"))
              (JWTAuth.mk "c1" 1 "https://api.coze.com" None test_jwt_app) eq_refl)
    as (_ & _ & _ & _ & Hint & Hpos & _).
  split; [exact Hint|exact Hpos].
Defined.

(** ** The substitution of "api" by "www" *)

Lemma prefix_length (old s : string) :
  String.prefix old s = true -> (String.length old <= String.length s)%nat.
Proof.
  revert old. induction s as [|c s IH]; intros [|a old] Hp;
    cbn [String.length]; try lia.
  - discriminate Hp.
  - cbn [String.prefix] in Hp. destruct (ascii_dec a c); [|discriminate Hp].
    apply IH in Hp. lia.
Qed.

Lemma length_append (a b : string) :
  String.length (a +:+ b) = (String.length a + String.length b)%nat.
Proof.
  induction a as [|c a IH]; [reflexivity|].
  change (String c a +:+ b) with (String c (a +:+ b)).
  cbn [String.length]. now rewrite IH.
Qed.

Lemma replace_go_length (old new : string) (s : string) :
  String.length old = String.length new -> old <> "" ->
  forall skip, (skip <= String.length s)%nat ->
  String.length (replace_go old new skip s) = (String.length s - skip)%nat.
Proof.
  intros Hlen Hold. induction s as [|c s IH]; intros skip Hskip.
  - cbn in *. lia.
  - cbn [replace_go]. destruct skip as [|k].
    + destruct (String.prefix old (String c s)) eqn:Hp.
      * apply prefix_length in Hp. cbn [String.length] in Hp.
        rewrite length_append, IH by lia.
        destruct old; [congruence|]. cbn [String.length] in *. lia.
      * cbn [String.length]. rewrite IH by lia. lia.
    + cbn [String.length] in *. rewrite IH by lia. lia.
Qed.

Lemma replace_go_absent (old new s : string) :
  str_in old s = false -> replace_go old new 0 s = s.
Proof.
  induction s as [|c s IH]; [reflexivity|].
  cbn [str_in replace_go]. intros [Hp Hin]%orb_false_elim.
  rewrite Hp. now rewrite IH.
Qed.

(** X14: without a www override, the derived URL has the length of
    [base_url], for the two fixed hosts as for any other; and a
    [base_url] in which "api" does not occur is returned as it is, even
    if it is one of the fixed hosts. *)
Theorem www_base_url_shape (E : Env) (self : OAuthApp.t) :
  OAuthApp._www_base_url self = "" ->
  String.length (OAuthApp._get_www_base_url E self)
  = String.length (OAuthApp._base_url self) /\
  (str_in "api" (OAuthApp._base_url self) = false ->
   OAuthApp._get_www_base_url E self = OAuthApp._base_url self).
Proof.
  intros Hwww. unfold OAuthApp._get_www_base_url. rewrite Hwww. cbn [str_truthy].
  destruct (existsb _ _); [|now split].
  cbn [str_replace]. split.
  - rewrite replace_go_length; [lia|reflexivity|discriminate|lia].
  - apply replace_go_absent.
Qed.

Lemma www_base_url_shape_witness :
  String.length
    (OAuthApp._get_www_base_url test_env
       (OAuthApp.mk "c1" "https://api.coze.cn" "api.coze.cn" ""))
  = 19%nat.
Proof.
  exact (proj1 (www_base_url_shape test_env
                  (OAuthApp.mk "c1" "https://api.coze.cn" "api.coze.cn" "") eq_refl)).
Defined.

(** ** After a failed renewal *)

(** X15: a failure is not cached.  When [token] raises on an instance
    with an empty cache, that call made one exchange, the cache is still
    empty, and the next reading of [token] makes one exchange again. *)
Theorem failed_renewal_is_retried (E : Env) (self : JWTAuth.t) (w : World) (e : Exn) :
  JWTAuth._token self = None ->
  fst (JWTAuth.token E (self, w)) = Raise e ->
  let s' := snd (JWTAuth.token E (self, w)) in
  JWTAuth._token (fst s') = None /\
  exchanges (snd s') = S (exchanges w) /\
  exchanges (snd (snd (JWTAuth.token E s'))) = S (S (exchanges w)).
Proof.
  intros Hnone Hraise. cbv zeta.
  destruct (token_renew_outcome E self w w (generate_token_empty E self w Hnone))
    as (Hex & _ & Hfail & _).
  destruct (Hfail e Hraise) as (Hself & _).
  destruct (JWTAuth.token E (self, w)) as [r [self' w']]. cbn [fst snd] in *. subst self'.
  split; [exact Hnone|]. split; [exact Hex|].
  destruct (token_renew_outcome E self w' w' (generate_token_empty E self w' Hnone))
    as (Hex' & _).
  now rewrite Hex', Hex.
Qed.

Lemma failed_renewal_is_retried_witness :
  exchanges (snd (snd (JWTAuth.token offline_env
                         (snd (JWTAuth.token offline_env (test_jwt_auth, empty_world))))))
  = 2%nat.
Proof.
  exact (proj2 (proj2 (failed_renewal_is_retried offline_env test_jwt_auth empty_world
                         (TransportError "connection refused") eq_refl eq_refl))).
Defined.
